(** * AWS adapters of pip-services3-aws-node: a shallow embedding

    The development follows the repository component by component:
    - [CloudWatchCounters] (obj/src/count/CloudWatchCounters.js),
    - [CloudWatchLogger]   (obj/src/log/CloudWatchLogger.js),
    - [LambdaClient]       (src/clients/LambdaClient.ts),
    - [LambdaFunction]     (container/LambdaFunction.js),
    - [Arn]                (the connect module, which the sources do not ship).

    JavaScript numbers are IEEE binary64 values, so they are modelled by the
    kernel's primitive floats.  Collaborators that live outside the
    repository (the AWS SDK, the connection resolver, JSON, the id generator)
    appear as explicit replies handed to the operation that consults them;
    every operation returns the new component state together with the trace
    of the externally visible events it produced. *)

From Stdlib Require Import Floats.PrimFloat.
From Stdlib Require Import ZArith Lia Bool Ascii String.
From stdpp Require Import gmap strings list.

Open Scope string_scope.
Open Scope list_scope.

(** ** JavaScript values and errors *)

#[warnings="-register-all"]
Inductive JsValue :=
| VUndefined
| VNull
| VBool (b : bool)
| VNum (n : float)
| VStr (s : string)
| VArr (items : list JsValue)
| VObj (fields : list (string * JsValue)).

(** The exception classes of pip-services3-commons-node the sources
    instantiate. *)
Inductive ExceptionClass :=
| UnknownException
| InvocationException
| BadRequestException
| ConfigException.

(** An error value: either an error object delivered by a collaborator
    (only its [code] and [message] are ever read), or an application
    exception built by this repository. *)
#[warnings="-register-all"]
Inductive JsError :=
| ForeignError (code : string) (message : string)
| ApplicationException (cls : ExceptionClass) (correlation_id : JsValue)
    (code : string) (message : string)
    (cause : option JsError) (details : list (string * JsValue)).

Definition withCause (e : JsError) (c : JsError) : JsError :=
  match e with
  | ApplicationException cls cid code msg _ det =>
      ApplicationException cls cid code msg (Some c) det
  | ForeignError _ _ => e
  end.

Definition withDetails (e : JsError) (key : string) (value : JsValue) : JsError :=
  match e with
  | ApplicationException cls cid code msg cau det =>
      ApplicationException cls cid code msg cau (det ++ [(key, value)])
  | ForeignError _ _ => e
  end.

Definition error_code (e : JsError) : string :=
  match e with
  | ForeignError c _ => c
  | ApplicationException _ _ c _ _ _ => c
  end.

Definition error_class (e : JsError) : option ExceptionClass :=
  match e with
  | ForeignError _ _ => None
  | ApplicationException cls _ _ _ _ _ => Some cls
  end.

Definition error_details (e : JsError) : list (string * JsValue) :=
  match e with
  | ForeignError _ _ => []
  | ApplicationException _ _ _ _ _ det => det
  end.

(** A string argument that may be [null]/[undefined], as a value. *)
Definition of_nullable (o : option string) : JsValue :=
  match o with
  | Some x => VStr x
  | None => VNull
  end.

(** JavaScript truthiness of a nullable string: present and not empty. *)
Definition truthy (o : option string) : bool :=
  match o with
  | Some x => negb (String.eqb x "")
  | None => false
  end.

(** Own properties of a plain object, in insertion order. *)
Fixpoint get_property (key : string) (fields : list (string * JsValue)) : JsValue :=
  match fields with
  | [] => VUndefined
  | (k, x) :: rest => if String.eqb k key then x else get_property key rest
  end.

(** [obj[key] = v]: overwrite in place, or append a new property. *)
Fixpoint set_property (key : string) (v : JsValue) (fields : list (string * JsValue))
    : list (string * JsValue) :=
  match fields with
  | [] => [(key, v)]
  | (k, x) :: rest =>
      if String.eqb k key then (k, v) :: rest
      else (k, x) :: set_property key v rest
  end.

(** [v == null]. *)
Definition is_nullish (v : JsValue) : bool :=
  match v with
  | VUndefined | VNull => true
  | _ => false
  end.

(** What the JavaScript platform and the commons package contribute:
    number printing, [JSON.stringify], [JSON.parse] (a value, or the
    SyntaxError it throws) and [IdGenerator.nextShort()]. *)
Record Platform := {
  number_to_string : float -> string;
  JSON_stringify : JsValue -> string;
  JSON_parse : string -> JsError + JsValue;
  nextShort : string
}.

(** String conversion, as used by [+] on strings and by property keys. *)
Fixpoint ToString (P : Platform) (v : JsValue) : string :=
  match v with
  | VUndefined => "undefined"
  | VNull => "null"
  | VBool true => "true"
  | VBool false => "false"
  | VNum n => number_to_string P n
  | VStr x => x
  | VArr items =>
      String.concat ","
        (map (fun x => if is_nullish x then "" else ToString P x) items)
  | VObj _ => "[object Object]"
  end.

(** A [Date] object: [getTime] returns its time value, epoch milliseconds. *)
Record JsDate := { time_value : float }.
Definition getTime (d : JsDate) : float := time_value d.

(** The connection descriptor produced by the resolver (AwsConnectionParams);
    the components only call these four getters on it. *)
Record AwsConnectionParams := {
  getAccessId : option string;
  getAccessKey : option string;
  getRegion : option string;
  getArn : option string
}.

(** What the connection resolver hands to its callback: [(err, connection)]. *)
Record ResolveReply := {
  resolve_err : option JsError;
  resolve_connection : option AwsConnectionParams
}.

(** A remote call answers either before it returns (its callback, and what
    the callback continues with, run inside the call) or later, from the
    event loop. *)
Inductive Reply :=
| ReplyNow (err : option JsError)
| ReplyLater (err : option JsError).

(** ContextInfo of pip-services3-components-node: the two properties the
    components read. *)
Module ContextInfo.
Record t := {
  name : option string;
  contextId : option string
}.
End ContextInfo.

(** ** CloudWatchUnit.js *)
Module CloudWatchUnit.
Definition Milliseconds : string := "Milliseconds".
Definition Count : string := "Count".
Definition None : string := "None".
End CloudWatchUnit.

(** ** CloudWatchCounters.js *)
Module CloudWatchCounters.

(** CounterType of pip-services3-components-node, as the switch names it. *)
Inductive CounterType := Interval | LastValue | Statistics | Timestamp | Increment.

Module Counter.
Record t := {
    name : string;
    type : CounterType;
    last : float;
    count : float;
    min : float;
    max : float;
    average : float;
    time : JsDate
}.
End Counter.

Module Dimension.
Record t := { Name : string; Value : option string }.
End Dimension.

Module StatisticSet.
Record t := {
    SampleCount : float;
    Maximum : float;
    Minimum : float;
    Sum : float
}.
End StatisticSet.

(** A data point; [Value] and [StatisticValues] are properties that are
    present only once assigned. *)
Module MetricDatum.
Record t := {
    MetricName : string;
    Timestamp : JsDate;
    Dimensions : list Dimension.t;
    Unit : string;
    Value : option float;
    StatisticValues : option StatisticSet.t
}.
End MetricDatum.

Module PutMetricDataInput.
Record t := {
    MetricData : list MetricDatum.t;
    Namespace : option string
}.
End PutMetricDataInput.

Definition statistics_of (counter : Counter.t) : StatisticSet.t :=
  {| StatisticSet.SampleCount := Counter.count counter;
     StatisticSet.Maximum := Counter.max counter;
     StatisticSet.Minimum := Counter.min counter;
     StatisticSet.Sum := PrimFloat.mul (Counter.count counter) (Counter.average counter) |}.

Definition getCounterData (counter : Counter.t) (now : JsDate)
    (dimensions : list Dimension.t) : MetricDatum.t :=
  let value unit v stats :=
    {| MetricDatum.MetricName := Counter.name counter;
       MetricDatum.Timestamp := Counter.time counter;
       MetricDatum.Dimensions := dimensions;
       MetricDatum.Unit := unit;
       MetricDatum.Value := v;
       MetricDatum.StatisticValues := stats |} in
  match Counter.type counter with
  | Increment =>
      value CloudWatchUnit.Count (Some (Counter.count counter)) None
  | Interval =>
      value CloudWatchUnit.Milliseconds None (Some (statistics_of counter))
  | Statistics =>
      value CloudWatchUnit.None None (Some (statistics_of counter))
  | LastValue =>
      value CloudWatchUnit.None (Some (Counter.last counter)) None
  | Timestamp =>
      value CloudWatchUnit.None (Some (getTime (Counter.time counter))) None
  end.

(** The component's fields.  [_client] is the SDK handle: [Some tt] once
    constructed. *)
Record State := {
  _opened : bool;
  _client : option unit;
  _connection : option AwsConnectionParams;
  _source : option string;
  _instance : option string;
  _connectTimeout : Z
}.

(** The constructor. *)
Definition new : State :=
  {| _opened := false; _client := None; _connection := None;
     _source := None; _instance := None; _connectTimeout := 30000 |}.

Definition isOpen (s : State) : bool := _opened s.

Inductive Event :=
| Resolve (correlationId : option string)
| NewCloudWatch (accessKeyId secretAccessKey region : option string) (timeout : Z)
| Callback (err : option JsError)
| Thrown (what : string).

(** What [open] meets outside the component: the resolver's reply and
    whether the SDK constructor throws. *)
Record OpenEnv := {
  resolver : ResolveReply;
  constructor_error : option string
}.

(** [open] up to the point where it waits for the resolver: the guard, the
    flag, and the first task of the series.  The boolean tells whether the
    resolver was asked. *)
Definition open_begin (s : State) (correlationId : option string)
    : State * list Event * bool :=
  if _opened s then (s, [Callback None], false)
  else
    ({| _opened := true; _client := _client s; _connection := _connection s;
        _source := _source s; _instance := _instance s;
        _connectTimeout := _connectTimeout s |},
     [Resolve correlationId], true).

(** The resolver's callback and the rest of the series. *)
Definition open_resolved (s : State) (env : OpenEnv) : State * list Event :=
  let s1 := {| _opened := _opened s; _client := _client s;
               _connection := resolve_connection (resolver env);
               _source := _source s; _instance := _instance s;
               _connectTimeout := _connectTimeout s |} in
  match resolve_err (resolver env) with
  | Some err => (s1, [Callback (Some err)])
  | None =>
      match _connection s1 with
      | None => (s1, [Thrown "TypeError: Cannot read properties of undefined"])
      | Some c =>
          match constructor_error env with
          | Some what => (s1, [Thrown what])
          | None =>
              ({| _opened := _opened s; _client := Some tt;
                  _connection := _connection s1;
                  _source := _source s; _instance := _instance s;
                  _connectTimeout := _connectTimeout s |},
               [NewCloudWatch (getAccessId c) (getAccessKey c) (getRegion c)
                  (_connectTimeout s);
                Callback None])
          end
      end
  end.

Definition open (s : State) (correlationId : option string) (env : OpenEnv)
    : State * list Event :=
  let '(s1, tr, asked) := open_begin s correlationId in
  if asked then
    let '(s2, tr2) := open_resolved s1 env in (s2, tr ++ tr2)
  else (s1, tr).

Definition is_Resolve (e : Event) : bool :=
  match e with
  | Resolve _ => true
  | _ => false
  end.

(** How many times a trace asks the connection resolver. *)
Definition resolutions (tr : list Event) : nat :=
  length (List.filter is_Resolve tr).

Definition close (s : State) : State * list Event :=
  ({| _opened := false; _client := None; _connection := _connection s;
      _source := _source s; _instance := _instance s;
      _connectTimeout := _connectTimeout s |},
   [Callback None]).

(** The variables [save] closes over while it walks the batch: the
    accumulator [data], the hoisted [var params] (undefined until the
    statement after the loop assigns it), the put requests issued so far and
    the replies still owed by the event loop. *)
Record SaveVars := {
  data : list MetricDatum.t;
  params : option PutMetricDataInput.t;
  calls : list (option PutMetricDataInput.t);
  deferred : list (option JsError)
}.

(** One turn of [counters.forEach].  [async.series] starts its first task,
    the put, at once, and runs its second task ([data = []]) only when the
    put has called back without an error: before the next turn if the put
    answers inside the call, after the loop otherwise. *)
Definition forEach_body (remote : nat -> Reply) (now : JsDate)
    (dimensions : list Dimension.t) (v : SaveVars) (counter : Counter.t)
    : SaveVars :=
  let data' := data v ++ [getCounterData counter now dimensions] in
  if (20 <=? length data')%nat then
    let calls' := calls v ++ [params v] in
    match remote (length (calls v)) with
    | ReplyNow None =>
        {| data := []; params := params v; calls := calls';
           deferred := deferred v |}
    | ReplyNow (Some _) =>
        {| data := data'; params := params v; calls := calls';
           deferred := deferred v |}
    | ReplyLater r =>
        {| data := data'; params := params v; calls := calls';
           deferred := deferred v ++ [r] |}
    end
  else
    {| data := data'; params := params v; calls := calls v;
       deferred := deferred v |}.

Definition save_loop (remote : nat -> Reply) (now : JsDate)
    (dimensions : list Dimension.t) (counters : list Counter.t) : SaveVars :=
  fold_left (forEach_body remote now dimensions) counters
    {| data := []; params := None; calls := []; deferred := [] |}.

(** [save]: the put requests it issues, in order; [None] is a call whose
    [params] argument is [undefined]. *)
Definition save (s : State) (remote : nat -> Reply) (now : JsDate)
    (counters : list Counter.t) : list (option PutMetricDataInput.t) :=
  match _client s with
  | None => []
  | Some _ =>
      let dimensions :=
        [ {| Dimension.Name := "InstanceID"; Dimension.Value := _instance s |} ] in
      let v := save_loop remote now dimensions counters in
      let params' :=
        {| PutMetricDataInput.MetricData := data v;
           PutMetricDataInput.Namespace := _source s |} in
      if (0 <? length (data v))%nat then calls v ++ [Some params'] else calls v
  end.

(** The number of data points each issued request carries. *)
Definition sizes (cs : list (option PutMetricDataInput.t)) : list (option nat) :=
  map (option_map (fun p => length (PutMetricDataInput.MetricData p))) cs.

(** [setReferences]; [contextInfo] is what
    [references.getOneOptional(...context-info...)] returned. *)
Definition setReferences (s : State) (contextInfo : option ContextInfo.t) : State :=
  match contextInfo with
  | None => s
  | Some info =>
      {| _opened := _opened s; _client := _client s; _connection := _connection s;
         _source := match _source s with
                    | None => ContextInfo.name info
                    | Some _ => _source s
                    end;
         _instance := match _instance s with
                      | None => ContextInfo.contextId info
                      | Some _ => _instance s
                      end;
         _connectTimeout := _connectTimeout s |}
  end.

(** The dimension list [save] attaches to every data point. *)
Definition dimensions_of (s : State) : list Dimension.t :=
  [ {| Dimension.Name := "InstanceID"; Dimension.Value := _instance s |} ].

End CloudWatchCounters.

(** ** CloudWatchLogger.js *)
Module CloudWatchLogger.

Module ErrorDescription.
Record t := {
  message : string;
  stack_trace : option string
}.
End ErrorDescription.

(** LogMessage of pip-services3-components-node. *)
Module LogMessage.
Record t := {
  time : JsDate;
  source : option string;
  correlation_id : option string;
  level : string;
  message : string;
  error : option ErrorDescription.t
}.
End LogMessage.

Module InputLogEvent.
Record t := {
  timestamp : float;
  message : string
}.
End InputLogEvent.

Module PutLogEventsRequest.
Record t := {
  logEvents : list InputLogEvent.t;
  logGroupName : option string;
  logStreamName : option string;
  sequenceToken : option string
}.
End PutLogEventsRequest.

Module LogStream.
Record t := { uploadSequenceToken : option string }.
End LogStream.

(** [describeLogStreams] calls back with [(err, data)]; [data] is absent when
    the call failed, otherwise it carries [logStreams]. *)
Record DescribeReply := {
  describe_err : option JsError;
  describe_data : option (list LogStream.t)
}.

(** [putLogEvents] calls back with an error or with [data.nextSequenceToken]. *)
Inductive PutReply :=
| PutFailed (err : JsError)
| PutDone (nextSequenceToken : option string).

Record State := {
  _timer : option unit;
  _client : option unit;
  _connection : option AwsConnectionParams;
  _connectTimeout : Z;
  _group : option string;
  _stream : option string;
  _lastToken : option string;
  _cache : list LogMessage.t;
  _interval : Z
}.

(** The constructor; the interval is CachedLogger's. *)
Definition new (interval : Z) : State :=
  {| _timer := None; _client := None; _connection := None;
     _connectTimeout := 30000; _group := Some "undefined"; _stream := None;
     _lastToken := None; _cache := []; _interval := interval |}.

Definition set_lastToken (s : State) (t : option string) : State :=
  {| _timer := _timer s; _client := _client s; _connection := _connection s;
     _connectTimeout := _connectTimeout s; _group := _group s;
     _stream := _stream s; _lastToken := t; _cache := _cache s;
     _interval := _interval s |}.

Definition set_cache (s : State) (c : list LogMessage.t) : State :=
  {| _timer := _timer s; _client := _client s; _connection := _connection s;
     _connectTimeout := _connectTimeout s; _group := _group s;
     _stream := _stream s; _lastToken := _lastToken s; _cache := c;
     _interval := _interval s |}.

Definition isOpen (s : State) : bool :=
  match _timer s with
  | Some _ => true
  | None => false
  end.

Inductive Event :=
| Resolve (correlationId : option string)
| NewCloudWatchLogs (accessKeyId secretAccessKey region : option string) (timeout : Z)
| CreateLogGroup (logGroupName : option string)
| CreateLogStream (logGroupName logStreamName : option string)
| DescribeLogStreams (logGroupName logStreamNamePrefix : option string)
| PutLogEvents (params : PutLogEventsRequest.t)
| SetInterval (ms : Z)
| ClearInterval
| LoggerError (err : JsError) (text : string)
| Callback (err : option JsError)
| Thrown (what : string).

Definition formatMessageText (message : LogMessage.t) : string :=
  let result :=
    "[" +:+ (if truthy (LogMessage.source message)
             then default "" (LogMessage.source message) else "---")
    +:+ ":" +:+ (if truthy (LogMessage.correlation_id message)
                 then default "" (LogMessage.correlation_id message) else "---")
    +:+ ":" +:+ LogMessage.level message +:+ "] "
    +:+ LogMessage.message message in
  match LogMessage.error message with
  | None => result
  | Some e =>
      let result :=
        if String.eqb (LogMessage.message message) ""
        then result +:+ "Error: " else result +:+ ": " in
      let result := result +:+ ErrorDescription.message e in
      if truthy (ErrorDescription.stack_trace e)
      then result +:+ " StackTrace: " +:+ default "" (ErrorDescription.stack_trace e)
      else result
  end.

Definition NOT_OPENED : JsError :=
  ApplicationException ConfigException (VStr "cloudwatch_logger") "NOT_OPENED"
    "CloudWatchLogger is not opened" None [].

(** The replies [save] receives from the remote service. *)
Record SaveEnv := {
  describe : DescribeReply;
  put : PutReply
}.

(** The first stream's token replaces the held one when the listing is not
    empty. *)
Definition refetch (s : State) (streams : list LogStream.t) : State :=
  match streams with
  | first :: _ => set_lastToken s (LogStream.uploadSequenceToken first)
  | [] => s
  end.

(** [save messages callback].  [callback] tells whether the caller passed
    one.  The result is the new state, the trace, and the invocations of the
    caller's callback ([Some err] per call with its argument). *)
Definition save (s : State) (messages : option (list LogMessage.t))
    (callback : bool) (env : SaveEnv)
    : State * list Event * list (option JsError) :=
  match messages with
  | None => (s, [], if callback then [None] else [])
  | Some messages =>
      if negb (isOpen s) || (length messages =? 0)%nat
      then (s, [], if callback then [None] else [])
      else
        match _client s with
        | None =>
            if callback then (s, [], [Some NOT_OPENED])
            else (s, [Thrown "TypeError: callback is not a function"], [])
        | Some _ =>
            let events :=
              map (fun message =>
                     {| InputLogEvent.timestamp := getTime (LogMessage.time message);
                        InputLogEvent.message := formatMessageText message |})
                  messages in
            let params :=
              {| PutLogEventsRequest.logEvents := events;
                 PutLogEventsRequest.logGroupName := _group s;
                 PutLogEventsRequest.logStreamName := _stream s;
                 PutLogEventsRequest.sequenceToken := _lastToken s |} in
            let asked := DescribeLogStreams (_group s) (_stream s) in
            match describe_data (describe env) with
            | None =>
                (s, [asked; Thrown "TypeError: Cannot read properties of null"], [])
            | Some streams =>
                let s1 := refetch s streams in
                match put env with
                | PutFailed err =>
                    (s1, [asked; PutLogEvents params;
                          LoggerError err "putLogEvents error"], [])
                | PutDone next =>
                    (set_lastToken s1 next, [asked; PutLogEvents params], [])
                end
            end
        end
  end.

(** The replies [open] receives. *)
Record OpenEnv := {
  resolver : ResolveReply;
  createLogGroup : option JsError;
  createLogStream : option JsError;
  describeLogStreams : DescribeReply
}.

Definition ResourceAlreadyExistsException : string :=
  "ResourceAlreadyExistsException".

Definition set_timer (s : State) (t : option unit) : State :=
  {| _timer := t; _client := _client s; _connection := _connection s;
     _connectTimeout := _connectTimeout s; _group := _group s;
     _stream := _stream s; _lastToken := _lastToken s; _cache := _cache s;
     _interval := _interval s |}.

Definition set_client (s : State) (c : option unit) : State :=
  {| _timer := _timer s; _client := c; _connection := _connection s;
     _connectTimeout := _connectTimeout s; _group := _group s;
     _stream := _stream s; _lastToken := _lastToken s; _cache := _cache s;
     _interval := _interval s |}.

Definition set_connection (s : State) (c : option AwsConnectionParams) : State :=
  {| _timer := _timer s; _client := _client s; _connection := c;
     _connectTimeout := _connectTimeout s; _group := _group s;
     _stream := _stream s; _lastToken := _lastToken s; _cache := _cache s;
     _interval := _interval s |}.

(** The fourth task of [open]: start the flush timer. *)
Definition open_timer (s : State) (tr : list Event) : State * list Event :=
  match _timer s with
  | None => (set_timer s (Some tt), tr ++ [SetInterval (_interval s); Callback None])
  | Some _ => (s, tr ++ [Callback None])
  end.

(** The third task of [open]: create the stream, or recover its token. *)
Definition open_stream (s : State) (tr : list Event) (env : OpenEnv)
    : State * list Event :=
  let tr := tr ++ [CreateLogStream (_group s) (_stream s)] in
  match createLogStream env with
  | Some err =>
      if String.eqb (error_code err) ResourceAlreadyExistsException then
        let tr := tr ++ [DescribeLogStreams (_group s) (_stream s)] in
        match describe_data (describeLogStreams env) with
        | None => (s, tr ++ [Thrown "TypeError: Cannot read properties of null"])
        | Some streams =>
            let s1 := refetch s streams in
            match describe_err (describeLogStreams env) with
            | Some e => (s1, tr ++ [Callback (Some e)])
            | None => open_timer s1 tr
            end
        end
      else (s, tr ++ [Callback (Some err)])
  | None => open_timer (set_lastToken s None) tr
  end.

Definition open (s : State) (correlationId : option string) (env : OpenEnv)
    : State * list Event :=
  if isOpen s then (s, [Callback None])
  else
    let s1 := set_connection s (resolve_connection (resolver env)) in
    let tr := [Resolve correlationId] in
    match resolve_err (resolver env) with
    | Some err => (s1, tr ++ [Callback (Some err)])
    | None =>
        match _connection s1 with
        | None => (s1, tr ++ [Thrown "TypeError: Cannot read properties of undefined"])
        | Some c =>
            let s2 := set_client s1 (Some tt) in
            let tr := tr ++ [NewCloudWatchLogs (getAccessId c) (getAccessKey c)
                               (getRegion c) (_connectTimeout s);
                             CreateLogGroup (_group s)] in
            match createLogGroup env with
            | Some err =>
                if String.eqb (error_code err) ResourceAlreadyExistsException
                then open_stream s2 tr env
                else (s2, tr ++ [Callback (Some err)])
            | None => open_stream s2 tr env
            end
        end
    end.

(** [close]: the teardown lives in the continuation handed to [save], so it
    runs once per invocation of that continuation. *)
Definition close (s : State) (callback : bool) (env : SaveEnv)
    : State * list Event :=
  let '(s1, tr, completions) := save s (Some (_cache s)) true env in
  fold_left
    (fun '(st, tr) (_ : option JsError) =>
       let tr := if isOpen st then tr ++ [ClearInterval] else tr in
       let st := set_client (set_timer (set_cache st []) None) None in
       (st, if callback then tr ++ [Callback None] else tr))
    completions (s1, tr).

(** The invocations of the operation's own callback in a trace. *)
Definition callbacks (tr : list Event) : list (option JsError) :=
  omap (fun e => match e with
                 | Callback err => Some err
                 | _ => None
                 end) tr.

(** An open logger holds its client. *)
Definition client_while_open (s : State) : Prop :=
  isOpen s = true -> _client s = Some tt.

(** The states a logger goes through: built by the constructor and
    configured, then driven by [open], [save], [close] and by the cache
    filling and draining between flushes. *)
Inductive reachable : State -> Prop :=
| reach_new s :
    _timer s = None -> _client s = None -> reachable s
| reach_open s cid env :
    reachable s -> reachable (fst (open s cid env))
| reach_save s messages callback env :
    reachable s -> reachable (fst (fst (save s messages callback env)))
| reach_close s callback env :
    reachable s -> reachable (fst (close s callback env))
| reach_cache s c :
    reachable s -> reachable (set_cache s c).

(** [setReferences]: the stream defaults to the context name and the group
    to the context id. *)
Definition setReferences (s : State) (contextInfo : option ContextInfo.t) : State :=
  match contextInfo with
  | None => s
  | Some info =>
      {| _timer := _timer s; _client := _client s; _connection := _connection s;
         _connectTimeout := _connectTimeout s;
         _group := match _group s with
                   | None => ContextInfo.contextId info
                   | Some _ => _group s
                   end;
         _stream := match _stream s with
                    | None => ContextInfo.name info
                    | Some _ => _stream s
                    end;
         _lastToken := _lastToken s; _cache := _cache s; _interval := _interval s |}
  end.

(** The remote calls of a trace. *)
Definition is_remote (e : Event) : bool :=
  match e with
  | CreateLogGroup _ | CreateLogStream _ _ | DescribeLogStreams _ _
  | PutLogEvents _ => true
  | _ => false
  end.

Definition put_requests (tr : list Event) : list PutLogEventsRequest.t :=
  omap (fun e => match e with PutLogEvents p => Some p | _ => None end) tr.

End CloudWatchLogger.

(** ** LambdaClient.ts *)
Module LambdaClient.

Record State := {
  _opened : bool;
  _connection : option AwsConnectionParams;
  _lambda : option unit;
  _connectTimeout : Z
}.

Definition new : State :=
  {| _opened := false; _connection := None; _lambda := None;
     _connectTimeout := 10000 |}.

Definition isOpen (s : State) : bool := _opened s.

Module InvocationRequest.
Record t := {
  FunctionName : option string;
  InvocationType : string;
  LogType : string;
  Payload : string
}.
End InvocationRequest.

(** The SDK's answer to [invoke]: an error, or [data] with its [Payload]. *)
Inductive InvokeReply :=
| InvokeFailed (err : JsError)
| InvokeDone (Payload : JsValue).

Inductive Event :=
| Resolve (correlationId : option string)
| NewLambda (accessKeyId secretAccessKey region : option string) (timeout : Z)
| LoggerDebug (correlationId : option string) (text : string)
| LoggerError (correlationId : option string) (err : JsError) (text : string)
| Invoke (params : InvocationRequest.t)
| Callback (err : option JsError) (result : JsValue)
| Thrown (what : string).

(** [async.series] hands its final callback the error and the array of the
    results gathered so far: one (undefined) entry per task that called
    back. *)
Definition series_results (tasks : nat) : JsValue :=
  VArr (replicate tasks VUndefined).

Definition open (s : State) (correlationId : option string) (reply : ResolveReply)
    : State * list Event :=
  if isOpen s then (s, [Callback None VUndefined])
  else
    let s1 := {| _opened := _opened s; _connection := resolve_connection reply;
                 _lambda := _lambda s; _connectTimeout := _connectTimeout s |} in
    match resolve_err reply with
    | Some err =>
        (s1, [Resolve correlationId; Callback (Some err) (series_results 1)])
    | None =>
        match _connection s1 with
        | None =>
            (s1, [Resolve correlationId;
                  Thrown "TypeError: Cannot read properties of undefined"])
        | Some c =>
            ({| _opened := true; _connection := Some c; _lambda := Some tt;
                _connectTimeout := _connectTimeout s |},
             [Resolve correlationId;
              NewLambda (getAccessId c) (getAccessKey c) (getRegion c)
                (_connectTimeout s);
              LoggerDebug correlationId "Lambda client connected to %s";
              Callback None (series_results 2)])
        end
    end.

Definition close (s : State) (callback : bool) : State * list Event :=
  ({| _opened := false; _connection := _connection s; _lambda := _lambda s;
      _connectTimeout := _connectTimeout s |},
   if callback then [Callback None VUndefined] else []).

(** The argument objects live in a store, so that the clone and the
    caller's object are told apart. *)
Inductive Arg :=
| ArgUndefined
| ArgNull
| ArgObject (address : nat).

(** [_.clone] of a plain object: a new object with the same own properties. *)
Definition clone (h : gmap nat (list (string * JsValue))) (address : nat)
    : option (nat * gmap nat (list (string * JsValue))) :=
  match h !! address with
  | Some fields => let a := fresh (dom h) in Some (a, <[a := fields]> h)
  | None => None
  end.

Definition NO_COMMAND : JsError :=
  ApplicationException UnknownException VNull "NO_COMMAND"
    "Missing Seneca pattern cmd" None [].

Definition CALL_FAILED (correlationId : option string) (cause : JsError) : JsError :=
  withCause
    (ApplicationException InvocationException (of_nullable correlationId)
       "CALL_FAILED" "Failed to invoke lambda function" None [])
    cause.

Definition DESERIALIZATION_FAILED (correlationId : option string) (cause : JsError)
    : JsError :=
  withCause
    (ApplicationException InvocationException (of_nullable correlationId)
       "DESERIALIZATION_FAILED" "Failed to deserialize result" None [])
    cause.

(** [correlationId || IdGenerator.nextShort()] *)
Definition correlation_of (P : Platform) (correlationId : option string) : string :=
  if truthy correlationId then default "" correlationId else nextShort P.

(** The object that is serialized: the properties of the clone, then
    [args.cmd = cmd] and [args.correlation_id = ...]. *)
Definition payload_fields (P : Platform) (cmd : string)
    (correlationId : option string) (fields : list (string * JsValue))
    : list (string * JsValue) :=
  set_property "correlation_id" (VStr (correlation_of P correlationId))
    (set_property "cmd" (VStr cmd) fields).

(** The callback of [this._lambda.invoke]. *)
Definition on_reply (P : Platform) (correlationId : option string)
    (callback : bool) (reply : InvokeReply) : list Event :=
  if negb callback then
    match reply with
    | InvokeFailed err =>
        [LoggerError correlationId err "Failed to invoke lambda function"]
    | InvokeDone _ => []
    end
  else
    match reply with
    | InvokeFailed err => [Callback (Some (CALL_FAILED correlationId err)) VNull]
    | InvokeDone (VStr text) =>
        match JSON_parse P text with
        | inr result => [Callback None result]
        | inl err =>
            [Callback (Some (DESERIALIZATION_FAILED correlationId err)) VNull;
             Callback None (VStr text)]
        end
    | InvokeDone result => [Callback None result]
    end.

Definition invoke (P : Platform) (s : State)
    (h : gmap nat (list (string * JsValue)))
    (invocationType : string) (cmd : option string)
    (correlationId : option string) (args : Arg) (callback : bool)
    (reply : InvokeReply)
    : gmap nat (list (string * JsValue)) * list Event :=
  match cmd with
  | None =>
      (h, if callback then [Callback (Some NO_COMMAND) VNull]
          else [LoggerError correlationId NO_COMMAND "Failed to call %s"])
  | Some cmd =>
      match args with
      | ArgUndefined | ArgNull =>
          (h, [Thrown "TypeError: Cannot set properties of null"])
      | ArgObject address =>
          match clone h address with
          | None => (h, [Thrown "no object at this address"])
          | Some (a, h1) =>
              let fields :=
                payload_fields P cmd correlationId (default [] (h1 !! a)) in
              let h2 := <[a := fields]> h1 in
              match _connection s with
              | None =>
                  (h2, [Thrown "TypeError: Cannot read properties of undefined"])
              | Some c =>
                  let params :=
                    {| InvocationRequest.FunctionName := getArn c;
                       InvocationRequest.InvocationType := invocationType;
                       InvocationRequest.LogType := "None";
                       InvocationRequest.Payload :=
                         JSON_stringify P (VObj fields) |} in
                  match _lambda s with
                  | None =>
                      (h2, [Thrown "TypeError: Cannot read properties of undefined"])
                  | Some _ =>
                      (h2, Invoke params :: on_reply P correlationId callback reply)
                  end
              end
          end
      end
  end.

(** [params = {}] applies to a missing argument only. *)
Definition default_params (h : gmap nat (list (string * JsValue))) (params : Arg)
    : gmap nat (list (string * JsValue)) * Arg :=
  match params with
  | ArgUndefined => let a := fresh (dom h) in (<[a := []]> h, ArgObject a)
  | _ => (h, params)
  end.

Definition call (P : Platform) (s : State)
    (h : gmap nat (list (string * JsValue))) (cmd : option string)
    (correlationId : option string) (params : Arg) (callback : bool)
    (reply : InvokeReply) :=
  let '(h, params) := default_params h params in
  invoke P s h "RequestResponse" cmd correlationId params callback reply.

Definition callOneWay (P : Platform) (s : State)
    (h : gmap nat (list (string * JsValue))) (cmd : option string)
    (correlationId : option string) (params : Arg) (callback : bool)
    (reply : InvokeReply) :=
  let '(h, params) := default_params h params in
  invoke P s h "Event" cmd correlationId params callback reply.

Definition remote_calls (tr : list Event) : list InvocationRequest.t :=
  omap (fun e => match e with Invoke p => Some p | _ => None end) tr.

Definition callbacks (tr : list Event) : list (option JsError * JsValue) :=
  omap (fun e => match e with Callback err r => Some (err, r) | _ => None end) tr.

End LambdaClient.

(** ** CommandableLambdaClient.js *)
Module CommandableLambdaClient.

Inductive Event :=
| LoggerTrace (correlationId : option string) (text : string) (name : string)
| BeginTiming (name : string)
| Client (e : LambdaClient.Event)
| EndTiming
| Callback (err : option JsError) (result : JsValue).

(** The closure [callCommand] hands to [call]: it ends the timing, then
    forwards to the caller's callback when there is one. *)
Definition on_callback (callback : bool) (e : LambdaClient.Event) : list Event :=
  match e with
  | LambdaClient.Callback err result =>
      EndTiming :: (if callback then [Callback err result] else [])
  | _ => [Client e]
  end.

(** [callCommand(cmd, correlationId, params, callback)] of a client built
    with [name]; [instrument] writes a trace line and starts the timing. *)
Definition callCommand (P : Platform) (name : string) (s : LambdaClient.State)
    (h : gmap nat (list (string * JsValue))) (cmd : string)
    (correlationId : option string) (params : LambdaClient.Arg) (callback : bool)
    (reply : LambdaClient.InvokeReply)
    : gmap nat (list (string * JsValue)) * list Event :=
  let method := name +:+ "." +:+ cmd in
  let '(h', tr) :=
    LambdaClient.call P s h (Some cmd) correlationId params true reply in
  (h', LoggerTrace correlationId "Executing %s method" method
       :: BeginTiming (method +:+ ".exec_time")
       :: flat_map (on_callback callback) tr).

Definition timings_ended (tr : list Event) : nat :=
  length (List.filter (fun e => match e with EndTiming => true | _ => false end) tr).

(** An error reaches somebody: the caller's callback or the logger. *)
Definition reports_error (e : Event) : bool :=
  match e with
  | Callback (Some _) _ => true
  | Client (LambdaClient.LoggerError _ _ _) => true
  | _ => false
  end.

(** The invocations of the caller's callback. *)
Definition callbacks (tr : list Event) : list (option JsError * JsValue) :=
  omap (fun e => match e with Callback err r => Some (err, r) | _ => None end) tr.

End CommandableLambdaClient.

(** ** LambdaFunction.js *)
Module LambdaFunction.

(** [schema.validateAndReturnException(correlationId, params, strict)] *)
Definition Schema : Type :=
  JsValue -> list (string * JsValue) -> bool -> option JsError.

(** An action, seen through the calls [(err, result)] it makes to the
    callback it is given. *)
Definition Action : Type :=
  list (string * JsValue) -> list (option JsError * JsValue).

(** What [registerAction] stores: the closure over [schema] and [action]. *)
Record Registered := {
  schema : option Schema;
  action : Action
}.

Definition actionCurl (r : Registered) (params : list (string * JsValue))
    : list (option JsError * JsValue) :=
  match schema r with
  | Some validateAndReturnException =>
      let correlationId := get_property "correlaton_id" params in
      match validateAndReturnException correlationId params false with
      | Some err => [(Some err, VNull)]
      | None => action r params
      end
  | None => action r params
  end.

(** [_actions] starts as [{}]: its own properties are the registered
    actions, and every other lookup falls through to [Object.prototype]. *)
Record State := {
  _actions : gmap string Registered
}.

Definition new : State := {| _actions := ∅ |}.

(** The function-valued properties of [Object.prototype]; none of them
    calls its second argument. *)
Definition Object_prototype_functions : list string :=
  ["constructor"; "__defineGetter__"; "__defineSetter__"; "hasOwnProperty";
   "__lookupGetter__"; "__lookupSetter__"; "isPrototypeOf";
   "propertyIsEnumerable"; "toString"; "valueOf"; "toLocaleString"].

Inductive Member :=
| Own (r : Registered)
| InheritedFunction (name : string)
| InheritedPrototype.

(** [this._actions[key]] *)
Definition actions_get (s : State) (key : string) : option Member :=
  match _actions s !! key with
  | Some r => Some (Own r)
  | None =>
      if bool_decide (key ∈ Object_prototype_functions)
      then Some (InheritedFunction key)
      else if String.eqb key "__proto__" then Some InheritedPrototype
      else None
  end.

Inductive RegisterResult :=
| Registered_ (s : State)
| RegisterThrew (err : JsError)
| PrototypeReplaced.

(** [registerAction(cmd, schema, action)].  Assigning to ["__proto__"]
    replaces the prototype of [_actions] instead of adding a property; the
    model stops there. *)
Definition registerAction (s : State) (cmd : string) (schema : option Schema)
    (action : option Action) : RegisterResult :=
  if String.eqb cmd "" then
    RegisterThrew
      (ApplicationException UnknownException VNull "NO_COMMAND" "Missing command"
         None [])
  else
    match action with
    | None =>
        RegisterThrew
          (ApplicationException UnknownException VNull "NO_ACTION" "Missing action"
             None [])
    | Some action =>
        if String.eqb cmd "__proto__" then PrototypeReplaced
        else
          Registered_
            {| _actions :=
                 <[cmd := {| schema := schema; action := action |}]> (_actions s) |}
    end.

Inductive Event :=
| Done (err : option JsError) (result : JsValue)
| InheritedCall (name : string)
| Thrown (what : string).

(** The exception constructors default a missing (undefined) correlation id
    to null. *)
Definition correlation_argument (correlationId : JsValue) : JsValue :=
  match correlationId with
  | VUndefined => VNull
  | _ => correlationId
  end.

(** The details of an exception are a map of strings: a value is stored
    converted to a string, null and undefined as null. *)
Definition detail_value (P : Platform) (value : JsValue) : JsValue :=
  if is_nullish value then VNull else VStr (ToString P value).

Definition NO_COMMAND (correlationId : JsValue) : JsError :=
  ApplicationException BadRequestException (correlation_argument correlationId)
    "NO_COMMAND" "Cmd parameter is missing" None [].

Definition NO_ACTION (P : Platform) (correlationId : JsValue) (cmd : JsValue)
    : JsError :=
  withDetails
    (ApplicationException BadRequestException (correlation_argument correlationId)
       "NO_ACTION" ("Action " +:+ ToString P cmd +:+ " was not found") None [])
    "command" (detail_value P cmd).

(** The inherited functions that return when called without receiver:
    [Object.prototype.toString] answers "[object Undefined]" and [Object]
    returns its argument.  Every other function of [Object.prototype]
    converts its undefined receiver to an object first, which throws. *)
Definition Object_prototype_returning : list string :=
  ["constructor"; "toString"].

(** [action(event, context.done)] on a function inherited from
    [Object.prototype]: the call is made, and it either returns or throws;
    [context.done] is not called. *)
Definition inherited_call (name : string) : list Event :=
  if bool_decide (name ∈ Object_prototype_returning)
  then [InheritedCall name]
  else [InheritedCall name;
        Thrown "TypeError: Cannot convert undefined or null to object"].

(** [execute(event, context)]; the trace lists the calls to [context.done],
    the calls of inherited functions and the exceptions that escape. *)
Definition execute (P : Platform) (s : State) (event : list (string * JsValue))
    : list Event :=
  let cmd := get_property "cmd" event in
  let correlationId := get_property "correlation_id" event in
  if is_nullish cmd then [Done (Some (NO_COMMAND correlationId)) VNull]
  else
    match actions_get s (ToString P cmd) with
    | None => [Done (Some (NO_ACTION P correlationId cmd)) VNull]
    | Some (Own r) => map (fun '(err, result) => Done err result) (actionCurl r event)
    | Some (InheritedFunction name) => inherited_call name
    | Some InheritedPrototype => [Thrown "TypeError: action is not a function"]
    end.

End LambdaFunction.

(** ** Amazon Resource Names (connect module) *)
Module Arn.

Record t := {
  partition : string;
  service : string;
  region : string;
  account : string;
  resourceType : string;
  resource : string
}.

(** Cut a string at the first occurrence of a delimiter. *)
Fixpoint split_at (c : ascii) (text : string) : option (string * string) :=
  match text with
  | EmptyString => None
  | String x rest =>
      if Ascii.eqb x c then Some (EmptyString, rest)
      else
        match split_at c rest with
        | Some (a, b) => Some (String x a, b)
        | None => None
        end
  end.

Fixpoint contains (c : ascii) (text : string) : bool :=
  match text with
  | EmptyString => false
  | String x rest => Ascii.eqb x c || contains c rest
  end.

(** Modelled from the spec: the ARN composer of the connect module
    (AwsConnectionParams), which the sources do not include.  The string
    form is arn:partition:service:region:account:resourceType/resource. *)
Definition toString (a : t) : string :=
  "arn:" +:+ partition a +:+ ":" +:+ service a +:+ ":" +:+ region a +:+ ":"
  +:+ account a +:+ ":" +:+ resourceType a +:+ "/" +:+ resource a.

(** Modelled from the spec: the ARN parser of the connect module, which the
    sources do not include.  Parsing is purely lexical: the leading fields
    are colon-delimited and the resource suffix is slash-delimited. *)
Definition parse (text : string) : option t :=
  match split_at ":" text with
  | Some (head, r1) =>
      if String.eqb head "arn" then
        match split_at ":" r1 with
        | Some (p, r2) =>
            match split_at ":" r2 with
            | Some (sv, r3) =>
                match split_at ":" r3 with
                | Some (rg, r4) =>
                    match split_at ":" r4 with
                    | Some (ac, r5) =>
                        match split_at "/" r5 with
                        | Some (rt, rs) =>
                            Some {| partition := p; service := sv; region := rg;
                                    account := ac; resourceType := rt;
                                    resource := rs |}
                        | None => None
                        end
                    | None => None
                    end
                | None => None
                end
            | None => None
            end
        | None => None
        end
      else None
  | None => None
  end.

(** Parts that the string form keeps apart: no colon in the colon-delimited
    fields, no slash in the resource type. *)
Definition well_formed (a : t) : bool :=
  negb (contains ":" (partition a)) && negb (contains ":" (service a))
  && negb (contains ":" (region a)) && negb (contains ":" (account a))
  && negb (contains "/" (resourceType a)).

End Arn.

(** ** Sample inputs *)
Module Samples.

Definition now : JsDate := {| time_value := 1700000000000%float |}.

Definition counter (ty : CloudWatchCounters.CounterType) : CloudWatchCounters.Counter.t :=
  {| CloudWatchCounters.Counter.name := "mycomponent.mymethod.calls";
     CloudWatchCounters.Counter.type := ty;
     CloudWatchCounters.Counter.last := 3%float;
     CloudWatchCounters.Counter.count := 4%float;
     CloudWatchCounters.Counter.min := 1%float;
     CloudWatchCounters.Counter.max := 9%float;
     CloudWatchCounters.Counter.average := 2.5%float;
     CloudWatchCounters.Counter.time := now |}.

Definition connection : AwsConnectionParams :=
  {| getAccessId := Some "A"; getAccessKey := Some "B";
     getRegion := Some "us-east-1";
     getArn := Some "arn:aws:lambda:us-east-1:123456789012:function/myFunc" |}.

Definition resolved : ResolveReply :=
  {| resolve_err := None; resolve_connection := Some connection |}.

Definition unresolved : ResolveReply :=
  {| resolve_err := Some (ForeignError "NO_CONNECTION" "no connection configured");
     resolve_connection := None |}.

Definition counters_env : CloudWatchCounters.OpenEnv :=
  {| CloudWatchCounters.resolver := resolved;
     CloudWatchCounters.constructor_error := None |}.

Definition counters_env_failing : CloudWatchCounters.OpenEnv :=
  {| CloudWatchCounters.resolver := unresolved;
     CloudWatchCounters.constructor_error := None |}.

(** A counters component after a successful [open]. *)
Definition opened_counters : CloudWatchCounters.State :=
  fst (CloudWatchCounters.open CloudWatchCounters.new (Some "123") counters_env).

Definition batch45 : list CloudWatchCounters.Counter.t :=
  replicate 45 (counter CloudWatchCounters.Increment).

Definition answers_at_once (n : nat) : Reply := ReplyNow None.
Definition answers_later (n : nat) : Reply := ReplyLater None.

Definition stream_with (token : string) : CloudWatchLogger.DescribeReply :=
  {| CloudWatchLogger.describe_err := None;
     CloudWatchLogger.describe_data :=
       Some [ {| CloudWatchLogger.LogStream.uploadSequenceToken := Some token |} ] |}.

(** The stream exists already and its token is "token-1". *)
Definition logger_env : CloudWatchLogger.OpenEnv :=
  {| CloudWatchLogger.resolver := resolved;
     CloudWatchLogger.createLogGroup :=
       Some (ForeignError "ResourceAlreadyExistsException" "group exists");
     CloudWatchLogger.createLogStream :=
       Some (ForeignError "ResourceAlreadyExistsException" "stream exists");
     CloudWatchLogger.describeLogStreams := stream_with "token-1" |}.

Definition opened_logger : CloudWatchLogger.State :=
  fst (CloudWatchLogger.open (CloudWatchLogger.new 300000) (Some "123") logger_env).

Definition message : CloudWatchLogger.LogMessage.t :=
  {| CloudWatchLogger.LogMessage.time := now;
     CloudWatchLogger.LogMessage.source := Some "mysource";
     CloudWatchLogger.LogMessage.correlation_id := Some "123";
     CloudWatchLogger.LogMessage.level := "ERROR";
     CloudWatchLogger.LogMessage.message := "Error occured";
     CloudWatchLogger.LogMessage.error :=
       Some {| CloudWatchLogger.ErrorDescription.message := "boom";
               CloudWatchLogger.ErrorDescription.stack_trace := None |} |}.

(** Another writer has advanced the stream to "token-2" in the meantime;
    the write itself is accepted and answers "token-3". *)
Definition save_env : CloudWatchLogger.SaveEnv :=
  {| CloudWatchLogger.describe := stream_with "token-2";
     CloudWatchLogger.put := CloudWatchLogger.PutDone (Some "token-3") |}.

Definition buffering_logger : CloudWatchLogger.State :=
  CloudWatchLogger.set_cache opened_logger [message].

(** A platform to run the examples on.  It prints the numbers 0 and 1 (the
    examples print no number), serializes values whose strings need no
    escaping, and decodes the JSON literals and the empty object. *)
Definition print_number (n : float) : string :=
  if PrimFloat.eqb n 0 then "0" else if PrimFloat.eqb n 1 then "1" else "NaN".

Definition quote (text : string) : string :=
  String.String (ascii_of_nat 34) text +:+ String.String (ascii_of_nat 34) "".

Fixpoint stringify (v : JsValue) : string :=
  match v with
  | VUndefined | VNull => "null"
  | VBool true => "true"
  | VBool false => "false"
  | VNum n => print_number n
  | VStr x => quote x
  | VArr items => "[" +:+ String.concat "," (map stringify items) +:+ "]"
  | VObj fields =>
      "{" +:+
      String.concat ","
        ((fix members (l : list (string * JsValue)) : list string :=
            match l with
            | [] => []
            | (k, VUndefined) :: rest => members rest
            | (k, x) :: rest => (quote k +:+ ":" +:+ stringify x) :: members rest
            end) fields)
      +:+ "}"
  end.

Definition decode (text : string) : JsError + JsValue :=
  if String.eqb text "null" then inr VNull
  else if String.eqb text "true" then inr (VBool true)
  else if String.eqb text "false" then inr (VBool false)
  else if String.eqb text "{}" then inr (VObj [])
  else inl (ForeignError "SyntaxError" "Unexpected token in JSON").

Definition platform : Platform :=
  {| number_to_string := print_number;
     JSON_stringify := stringify;
     JSON_parse := decode;
     nextShort := "f3a91c" |}.

Definition opened_client : LambdaClient.State :=
  fst (LambdaClient.open LambdaClient.new (Some "123") resolved).

(** The caller's argument object, [{ id: "42" }], at address 0. *)
Definition heap : gmap nat (list (string * JsValue)) :=
  {[ 0 := [("id", VStr "42")] ]}.

Definition ping : list (string * JsValue) :=
  [("cmd", VStr "ping"); ("correlation_id", VStr "123")].

Definition pong : LambdaFunction.Action :=
  fun params => [(None, VStr "pong")].

(** A schema that rejects every event. *)
Definition rejecting : LambdaFunction.Schema :=
  fun correlationId _ _ =>
    Some (ApplicationException BadRequestException correlationId "INVALID_DATA"
            "Validation failed" None []).

Definition guarded_ping : LambdaFunction.Registered :=
  {| LambdaFunction.schema := Some rejecting; LambdaFunction.action := pong |}.

(** A function whose only action is a ping behind the rejecting schema. *)
Definition guarded_function : LambdaFunction.State :=
  {| LambdaFunction._actions := {[ "ping" := guarded_ping ]} |}.

End Samples.

(** * Properties *)

(** ** CloudWatchCounters *)
Section CountersProperties.
Import CloudWatchCounters.

Variables (remote : nat -> Reply) (now : JsDate) (dimensions : list Dimension.t).

Lemma forEach_body_params v c :
  params (forEach_body remote now dimensions v c) = params v.
Proof.
  unfold forEach_body.
  destruct (_ <=? _)%nat; [destruct (remote _) as [[e|]|r]|]; reflexivity.
Qed.

Lemma forEach_body_calls v c :
  calls (forEach_body remote now dimensions v c) = calls v
  \/ calls (forEach_body remote now dimensions v c) = calls v ++ [params v].
Proof.
  unfold forEach_body.
  destruct (_ <=? _)%nat; [destruct (remote _) as [[e|]|r]|]; simpl; auto.
Qed.

(** Inside the loop every put is handed the still unassigned [params]. *)
Lemma loop_calls_undefined cs : forall v,
  params v = None -> Forall (eq None) (calls v) ->
  Forall (eq None) (calls (fold_left (forEach_body remote now dimensions) cs v)).
Proof.
  induction cs as [|c cs IH]; intros v Hp Hc; simpl; [exact Hc|].
  apply IH.
  - rewrite forEach_body_params. exact Hp.
  - destruct (forEach_body_calls v c) as [-> | ->]; [exact Hc|].
    apply Forall_app. split; [exact Hc|]. rewrite Hp. repeat constructor.
Qed.

Lemma forEach_body_calls_grow v c :
  calls v <> [] -> calls (forEach_body remote now dimensions v c) <> [].
Proof.
  intros H. destruct (forEach_body_calls v c) as [-> | ->]; [exact H|].
  destruct (calls v); [congruence | discriminate].
Qed.

(** Twenty accumulated data points trigger a put. *)
Lemma loop_calls_nonempty cs : forall v,
  calls v <> [] \/ (length (data v) < 20 /\ 20 <= length (data v) + length cs) ->
  calls (fold_left (forEach_body remote now dimensions) cs v) <> [].
Proof.
  induction cs as [|c cs IH]; intros v H; simpl.
  - destruct H as [H | [H1 H2]]; [exact H | simpl in H2; lia].
  - apply IH. destruct H as [H | [H1 H2]].
    + left. apply forEach_body_calls_grow, H.
    + unfold forEach_body. cbv zeta.
      destruct (Nat.leb_spec 20
                  (length (data v ++ [getCounterData c now dimensions])))
        as [Hge | Hlt].
      * left. destruct (remote _) as [[e|]|r]; simpl;
          destruct (calls v); discriminate.
      * right. simpl. rewrite length_app in *. simpl in *. lia.
Qed.

Lemma save_loop_first_call cs :
  20 <= length cs ->
  exists rest, calls (save_loop remote now dimensions cs) = None :: rest.
Proof.
  intros Hlen. unfold save_loop.
  set (v0 := {| data := []; params := None; calls := []; deferred := [] |}).
  pose proof (loop_calls_undefined cs v0 eq_refl (List.Forall_nil _)) as Hall.
  pose proof (loop_calls_nonempty cs v0) as Hne.
  destruct (calls (fold_left _ cs v0)) as [|p rest].
  - exfalso. apply Hne; [|reflexivity]. right. simpl. lia.
  - inversion Hall; subst. eauto.
Qed.

End CountersProperties.

(** C1 (code defect): a batch of twenty counters or more never yields the
    chunked submission.  The first put of [save] is issued inside the loop,
    where [params] is still unassigned, so it carries no data points at all,
    whatever the remote service answers; in particular the requests for 45
    counters are not three puts of 20, 20 and 5 data points. *)
Theorem save_first_put_carries_no_data :
  forall (s : CloudWatchCounters.State) (remote : nat -> Reply) (now : JsDate)
         (counters : list CloudWatchCounters.Counter.t),
    CloudWatchCounters._client s = Some tt ->
    20 <= length counters ->
    hd_error (CloudWatchCounters.save s remote now counters) = Some None
    /\ CloudWatchCounters.sizes (CloudWatchCounters.save s remote now counters)
       <> [Some 20; Some 20; Some 5].
Proof.
  intros s remote now counters Hc Hlen.
  assert (H : hd_error (CloudWatchCounters.save s remote now counters) = Some None).
  { unfold CloudWatchCounters.save. rewrite Hc.
    destruct (save_loop_first_call remote now
                [ {| CloudWatchCounters.Dimension.Name := "InstanceID";
                     CloudWatchCounters.Dimension.Value :=
                       CloudWatchCounters._instance s |} ] counters)
      as [rest Hrest]; [exact Hlen|].
    rewrite Hrest. destruct (_ <? _)%nat; reflexivity. }
  split; [exact H|].
  destruct (CloudWatchCounters.save s remote now counters) as [|[p|] l];
    simpl in *; congruence.
Qed.

Lemma save_first_put_carries_no_data_witness :
  hd_error (CloudWatchCounters.save Samples.opened_counters Samples.answers_at_once
              Samples.now Samples.batch45) = Some None
  /\ CloudWatchCounters.sizes
       (CloudWatchCounters.save Samples.opened_counters Samples.answers_at_once
          Samples.now Samples.batch45)
     <> [Some 20; Some 20; Some 5].
Proof.
  apply (save_first_put_carries_no_data Samples.opened_counters
           Samples.answers_at_once Samples.now Samples.batch45);
    [reflexivity | vm_compute; lia].
Defined.

(** With a service that answers inside the call the accumulator is reset
    after each put, and the two full chunks are lost: two puts without
    parameters, then one put with the last five points. *)
Example save_45_answers_at_once :
  CloudWatchCounters.sizes
    (CloudWatchCounters.save Samples.opened_counters Samples.answers_at_once
       Samples.now Samples.batch45)
  = [None; None; Some 5].
Proof. vm_compute. reflexivity. Qed.

(** With a service that answers from the event loop the accumulator is never
    reset during the loop: a put without parameters per counter from the
    twentieth on, then one put with all 45 points. *)
Example save_45_answers_later :
  CloudWatchCounters.sizes
    (CloudWatchCounters.save Samples.opened_counters Samples.answers_later
       Samples.now Samples.batch45)
  = replicate 26 None ++ [Some 45].
Proof. vm_compute. reflexivity. Qed.

(** C7 (as claimed it fails): an interval counter does carry an explicit
    unit, "Milliseconds", not the default unit. *)
Lemma interval_counter_has_explicit_unit :
  ~ CloudWatchCounters.MetricDatum.Unit
      (CloudWatchCounters.getCounterData
         (Samples.counter CloudWatchCounters.Interval) Samples.now [])
    = CloudWatchUnit.None.
Proof. vm_compute. discriminate. Qed.

(** C7 (amended): the data point built for a counter is determined by the
    counter's kind.  Increment: the raw count, unit "Count".  Interval and
    statistics: SampleCount = count, Minimum = min, Maximum = max and
    Sum = count * average, with unit "Milliseconds" for an interval counter
    and the default unit "None" for a statistics counter.  Last value: the
    raw last value.  Timestamp: the time as epoch milliseconds.  The last
    two keep the default unit. *)
Theorem getCounterData_shape :
  forall (counter : CloudWatchCounters.Counter.t) (now : JsDate)
         (dimensions : list CloudWatchCounters.Dimension.t),
    let d := CloudWatchCounters.getCounterData counter now dimensions in
    let stats :=
      {| CloudWatchCounters.StatisticSet.SampleCount :=
           CloudWatchCounters.Counter.count counter;
         CloudWatchCounters.StatisticSet.Maximum :=
           CloudWatchCounters.Counter.max counter;
         CloudWatchCounters.StatisticSet.Minimum :=
           CloudWatchCounters.Counter.min counter;
         CloudWatchCounters.StatisticSet.Sum :=
           PrimFloat.mul (CloudWatchCounters.Counter.count counter)
             (CloudWatchCounters.Counter.average counter) |} in
    CloudWatchCounters.MetricDatum.MetricName d
      = CloudWatchCounters.Counter.name counter
    /\ CloudWatchCounters.MetricDatum.Dimensions d = dimensions
    /\ match CloudWatchCounters.Counter.type counter with
       | CloudWatchCounters.Increment =>
           CloudWatchCounters.MetricDatum.Value d
             = Some (CloudWatchCounters.Counter.count counter)
           /\ CloudWatchCounters.MetricDatum.StatisticValues d = None
           /\ CloudWatchCounters.MetricDatum.Unit d = "Count"
       | CloudWatchCounters.Interval =>
           CloudWatchCounters.MetricDatum.Value d = None
           /\ CloudWatchCounters.MetricDatum.StatisticValues d = Some stats
           /\ CloudWatchCounters.MetricDatum.Unit d = "Milliseconds"
       | CloudWatchCounters.Statistics =>
           CloudWatchCounters.MetricDatum.Value d = None
           /\ CloudWatchCounters.MetricDatum.StatisticValues d = Some stats
           /\ CloudWatchCounters.MetricDatum.Unit d = "None"
       | CloudWatchCounters.LastValue =>
           CloudWatchCounters.MetricDatum.Value d
             = Some (CloudWatchCounters.Counter.last counter)
           /\ CloudWatchCounters.MetricDatum.StatisticValues d = None
           /\ CloudWatchCounters.MetricDatum.Unit d = "None"
       | CloudWatchCounters.Timestamp =>
           CloudWatchCounters.MetricDatum.Value d
             = Some (getTime (CloudWatchCounters.Counter.time counter))
           /\ CloudWatchCounters.MetricDatum.StatisticValues d = None
           /\ CloudWatchCounters.MetricDatum.Unit d = "None"
       end.
Proof.
  intros counter now dimensions d stats. subst d stats.
  unfold CloudWatchCounters.getCounterData.
  destruct (CloudWatchCounters.Counter.type counter); simpl; auto.
Qed.

(** The statistics of an interval counter on concrete numbers:
    Sum = 4 * 2.5 = 10. *)
Example interval_counter_sum :
  CloudWatchCounters.MetricDatum.StatisticValues
    (CloudWatchCounters.getCounterData
       (Samples.counter CloudWatchCounters.Interval) Samples.now [])
  = Some {| CloudWatchCounters.StatisticSet.SampleCount := 4%float;
            CloudWatchCounters.StatisticSet.Maximum := 9%float;
            CloudWatchCounters.StatisticSet.Minimum := 1%float;
            CloudWatchCounters.StatisticSet.Sum := 10%float |}.
Proof. vm_compute. reflexivity. Qed.

(** An [open] on an opened component answers at once and leaves it alone. *)
Lemma open_when_opened (s : CloudWatchCounters.State) cid env :
  CloudWatchCounters.isOpen s = true ->
  CloudWatchCounters.open s cid env = (s, [CloudWatchCounters.Callback None]).
Proof.
  unfold CloudWatchCounters.isOpen, CloudWatchCounters.open,
    CloudWatchCounters.open_begin.
  intros ->. reflexivity.
Qed.

Lemma open_resolved_keeps_flag (s : CloudWatchCounters.State) env :
  CloudWatchCounters._opened (fst (CloudWatchCounters.open_resolved s env))
  = CloudWatchCounters._opened s.
Proof.
  unfold CloudWatchCounters.open_resolved.
  destruct (resolve_err _); [reflexivity|]. simpl.
  destruct (resolve_connection _); [|reflexivity].
  destruct (CloudWatchCounters.constructor_error env); reflexivity.
Qed.

(** C9: [open] raises the opened flag before the resolver is asked.  On a
    closed component the flag is already up while the resolution is pending,
    it stays up whatever the resolver and the client constructor answer, and
    every later [open] calls back at once without asking the resolver
    again. *)
Theorem open_marks_opened_before_resolving :
  forall (s : CloudWatchCounters.State) (correlationId : option string)
         (env : CloudWatchCounters.OpenEnv),
    CloudWatchCounters.isOpen s = false ->
    let '(pending, asked_trace, asked) :=
      CloudWatchCounters.open_begin s correlationId in
    let after := fst (CloudWatchCounters.open s correlationId env) in
    asked = true
    /\ asked_trace = [CloudWatchCounters.Resolve correlationId]
    /\ CloudWatchCounters.isOpen pending = true
    /\ CloudWatchCounters.isOpen after = true
    /\ forall correlationId' env',
         CloudWatchCounters.open after correlationId' env'
           = (after, [CloudWatchCounters.Callback None])
         /\ CloudWatchCounters.resolutions
              (snd (CloudWatchCounters.open after correlationId' env')) = 0.
Proof.
  intros s cid env Hclosed.
  assert (Hafter : CloudWatchCounters.isOpen
                     (fst (CloudWatchCounters.open s cid env)) = true).
  { unfold CloudWatchCounters.isOpen in *.
    unfold CloudWatchCounters.open, CloudWatchCounters.open_begin.
    rewrite Hclosed.
    match goal with
    | |- context [CloudWatchCounters.open_resolved ?x env] =>
        pose proof (open_resolved_keeps_flag x env) as Hk;
        destruct (CloudWatchCounters.open_resolved x env) as [s2 tr2]
    end.
    simpl in *. exact Hk. }
  unfold CloudWatchCounters.open_begin.
  unfold CloudWatchCounters.isOpen in Hclosed. rewrite Hclosed.
  repeat split; try exact Hafter.
  - apply open_when_opened, Hafter.
  - rewrite open_when_opened by exact Hafter. reflexivity.
Qed.

Lemma open_marks_opened_before_resolving_witness :
  CloudWatchCounters.isOpen
    (fst (CloudWatchCounters.open CloudWatchCounters.new (Some "123")
            Samples.counters_env_failing)) = true
  /\ snd (CloudWatchCounters.open CloudWatchCounters.new (Some "123")
            Samples.counters_env_failing)
     = [CloudWatchCounters.Resolve (Some "123");
        CloudWatchCounters.Callback
          (Some (ForeignError "NO_CONNECTION" "no connection configured"))]
  /\ CloudWatchCounters.resolutions
       (snd (CloudWatchCounters.open
               (fst (CloudWatchCounters.open CloudWatchCounters.new (Some "123")
                       Samples.counters_env_failing))
               (Some "124") Samples.counters_env)) = 0.
Proof.
  pose proof (open_marks_opened_before_resolving CloudWatchCounters.new
                (Some "123") Samples.counters_env_failing eq_refl) as H.
  simpl in H. destruct H as (_ & _ & _ & Ho & Hn).
  split; [exact Ho|]. split; [reflexivity|].
  exact (proj2 (Hn (Some "124") Samples.counters_env)).
Defined.

(** ** CloudWatchLogger *)

Section LoggerProperties.
Import CloudWatchLogger.

Lemma save_keeps_handles s messages callback env :
  _timer (fst (fst (save s messages callback env))) = _timer s
  /\ _client (fst (fst (save s messages callback env))) = _client s.
Proof.
  unfold save.
  destruct messages as [messages|]; [|auto].
  destruct (negb (isOpen s) || _); [auto|].
  destruct (_client s) eqn:Hc; [|destruct callback; auto].
  destruct (describe_data (describe env)) as [streams|]; [|auto].
  destruct (put env); destruct streams; simpl; auto.
Qed.

Lemma open_timer_client s tr :
  _client (fst (open_timer s tr)) = _client s.
Proof. unfold open_timer. destruct (_timer s); reflexivity. Qed.

Lemma open_timer_closed s tr :
  _timer s = None -> isOpen (fst (open_timer s tr)) = true.
Proof. unfold open_timer. intros ->. reflexivity. Qed.

Lemma open_stream_client s tr env :
  _client (fst (open_stream s tr env)) = _client s.
Proof.
  unfold open_stream.
  destruct (createLogStream env) as [err|].
  - destruct (String.eqb _ _); [|reflexivity].
    destruct (describe_data _) as [streams|]; [|reflexivity].
    destruct (describe_err _); destruct streams; simpl;
      rewrite ?open_timer_client; reflexivity.
  - rewrite open_timer_client. reflexivity.
Qed.

Lemma open_client_while_open s cid env :
  client_while_open s -> client_while_open (fst (open s cid env)).
Proof.
  unfold client_while_open, open. intros Hs.
  destruct (isOpen s) eqn:Ho.
  { simpl. intros _. apply Hs. reflexivity. }
  assert (Hn : _timer s = None).
  { unfold isOpen in Ho. destruct (_timer s); [discriminate | reflexivity]. }
  destruct (resolve_err (resolver env)).
  { simpl. unfold isOpen. simpl. rewrite Hn. discriminate. }
  simpl _connection.
  destruct (resolve_connection (resolver env)) as [c|].
  2:{ simpl. unfold isOpen. simpl. rewrite Hn. discriminate. }
  destruct (createLogGroup env) as [err|].
  - destruct (String.eqb _ _).
    + intros _. rewrite open_stream_client. reflexivity.
    + intros _. reflexivity.
  - intros _. rewrite open_stream_client. reflexivity.
Qed.

Lemma close_client_while_open s callback env :
  client_while_open s -> client_while_open (fst (close s callback env)).
Proof.
  unfold client_while_open, close. intros Hs.
  pose proof (save_keeps_handles s (Some (_cache s)) true env) as [Ht Hc].
  destruct (save s (Some (_cache s)) true env) as [[s1 tr] completions].
  simpl in Ht, Hc.
  assert (Hs1 : isOpen s1 = true -> _client s1 = Some tt).
  { unfold isOpen in *. rewrite Ht, Hc. exact Hs. }
  clear Ht Hc Hs. revert s1 tr Hs1.
  induction completions as [|e rest IH]; intros s1 tr Hs1; simpl.
  - exact Hs1.
  - apply IH. unfold isOpen. simpl. discriminate.
Qed.

Lemma reachable_client_while_open s :
  reachable s -> client_while_open s.
Proof.
  induction 1 as [s Ht Hc | s cid env _ IH | s messages callback env _ IH
                 | s callback env _ IH | s c _ IH].
  - unfold client_while_open, isOpen. rewrite Ht. discriminate.
  - apply open_client_while_open, IH.
  - unfold client_while_open, isOpen in *.
    destruct (save_keeps_handles s messages callback env) as [-> ->]. exact IH.
  - apply close_client_while_open, IH.
  - exact IH.
Qed.

(** Past its guards [save] never reaches its callback. *)
Lemma save_open_never_calls_back s messages callback env :
  isOpen s = true -> _client s = Some tt -> messages <> [] ->
  snd (save s (Some messages) callback env) = [].
Proof.
  intros Ho Hc Hm. unfold save. rewrite Ho, Hc.
  destruct messages as [|m ms]; [congruence|]. simpl.
  destruct (describe_data (describe env)); [destruct (put env)|]; reflexivity.
Qed.

(** [save] itself never emits a callback event: its callback is reported
    in the third component. *)
Lemma save_trace_no_callbacks s messages callback env :
  callbacks (snd (fst (save s messages callback env))) = [].
Proof.
  unfold save.
  destruct messages as [messages|]; [|reflexivity].
  destruct (negb (isOpen s) || _); [reflexivity|].
  destruct (_client s); [|destruct callback; reflexivity].
  destruct (describe_data (describe env)); [destruct (put env)|]; reflexivity.
Qed.

End LoggerProperties.

(** C2 (code defect): the token is re-fetched before the write, and a
    successful write stores the token of the response, but the put request
    is built before the re-fetch: it carries the token the logger held when
    [save] was entered, not the one [describeLogStreams] just returned. *)
Theorem save_puts_with_the_token_held_before :
  forall (s : CloudWatchLogger.State) (messages : list CloudWatchLogger.LogMessage.t)
         (callback : bool) (env : CloudWatchLogger.SaveEnv)
         (fresh : CloudWatchLogger.LogStream.t)
         (others : list CloudWatchLogger.LogStream.t),
    CloudWatchLogger.isOpen s = true ->
    CloudWatchLogger._client s = Some tt ->
    messages <> [] ->
    CloudWatchLogger.describe_data (CloudWatchLogger.describe env)
      = Some (fresh :: others) ->
    exists params rest,
      snd (fst (CloudWatchLogger.save s (Some messages) callback env))
        = CloudWatchLogger.DescribeLogStreams (CloudWatchLogger._group s)
            (CloudWatchLogger._stream s)
          :: CloudWatchLogger.PutLogEvents params :: rest
      /\ CloudWatchLogger.PutLogEventsRequest.sequenceToken params
         = CloudWatchLogger._lastToken s
      /\ CloudWatchLogger._lastToken
           (CloudWatchLogger.refetch s (fresh :: others))
         = CloudWatchLogger.LogStream.uploadSequenceToken fresh
      /\ forall next,
           CloudWatchLogger.put env = CloudWatchLogger.PutDone next ->
           CloudWatchLogger._lastToken
             (fst (fst (CloudWatchLogger.save s (Some messages) callback env)))
           = next.
Proof.
  intros s messages callback env fresh others Ho Hc Hm Hd.
  unfold CloudWatchLogger.save. rewrite Ho, Hc, Hd.
  destruct messages as [|m ms]; [congruence|].
  cbn [negb orb length Nat.eqb].
  destruct (CloudWatchLogger.put env) as [err|next] eqn:Hp;
    eexists; eexists; (split; [reflexivity|]);
    (split; [reflexivity|]); (split; [reflexivity|]);
    intros next' Hn; [discriminate | injection Hn as <-; reflexivity].
Qed.

Lemma save_puts_with_the_token_held_before_witness :
  exists params rest,
    snd (fst (CloudWatchLogger.save Samples.opened_logger (Some [Samples.message])
                true Samples.save_env))
      = CloudWatchLogger.DescribeLogStreams (Some "undefined") None
        :: CloudWatchLogger.PutLogEvents params :: rest
    /\ CloudWatchLogger.PutLogEventsRequest.sequenceToken params = Some "token-1"
    /\ CloudWatchLogger._lastToken
         (CloudWatchLogger.refetch Samples.opened_logger
            [ {| CloudWatchLogger.LogStream.uploadSequenceToken := Some "token-2" |} ])
       = Some "token-2".
Proof.
  destruct (save_puts_with_the_token_held_before Samples.opened_logger
              [Samples.message] true Samples.save_env
              {| CloudWatchLogger.LogStream.uploadSequenceToken := Some "token-2" |}
              [] eq_refl eq_refl ltac:(discriminate) eq_refl)
    as (params & rest & Htr & Htok & Hre & _).
  exists params, rest. split; [exact Htr|]. split; [exact Htok | exact Hre].
Defined.

(** The same flush, evaluated: the stream stands at "token-2", the request
    goes out with "token-1". *)
Example save_with_stale_token :
  snd (fst (CloudWatchLogger.save Samples.opened_logger (Some [Samples.message])
              true Samples.save_env))
  = [ CloudWatchLogger.DescribeLogStreams (Some "undefined") None;
      CloudWatchLogger.PutLogEvents
        {| CloudWatchLogger.PutLogEventsRequest.logEvents :=
             [ {| CloudWatchLogger.InputLogEvent.timestamp := 1700000000000%float;
                  CloudWatchLogger.InputLogEvent.message :=
                    "[mysource:123:ERROR] Error occured: boom" |} ];
           CloudWatchLogger.PutLogEventsRequest.logGroupName := Some "undefined";
           CloudWatchLogger.PutLogEventsRequest.logStreamName := None;
           CloudWatchLogger.PutLogEventsRequest.sequenceToken := Some "token-1" |} ].
Proof. vm_compute. reflexivity. Qed.

(** C10: on an open logger, [save] with a non-empty batch never invokes its
    completion callback, whatever the service answers; hence a [close]
    issued while messages are buffered never calls back either, and its
    teardown never runs (the logger stays open). *)
Theorem save_never_signals_completion :
  forall (s : CloudWatchLogger.State),
    CloudWatchLogger.reachable s ->
    CloudWatchLogger.isOpen s = true ->
    (forall (messages : list CloudWatchLogger.LogMessage.t) (callback : bool)
            (env : CloudWatchLogger.SaveEnv),
        messages <> [] ->
        snd (CloudWatchLogger.save s (Some messages) callback env) = [])
    /\ (CloudWatchLogger._cache s <> [] ->
        forall (callback : bool) (env : CloudWatchLogger.SaveEnv),
          CloudWatchLogger.callbacks (snd (CloudWatchLogger.close s callback env)) = []
          /\ CloudWatchLogger.isOpen (fst (CloudWatchLogger.close s callback env))
             = true).
Proof.
  intros s Hr Ho.
  pose proof (reachable_client_while_open s Hr Ho) as Hc.
  split.
  - intros messages callback env Hm.
    apply save_open_never_calls_back; assumption.
  - intros Hcache callback env. unfold CloudWatchLogger.close.
    pose proof (save_open_never_calls_back s (CloudWatchLogger._cache s) true env
                  Ho Hc Hcache) as Hnone.
    pose proof (save_keeps_handles s (Some (CloudWatchLogger._cache s)) true env)
      as [Ht _].
    pose proof (save_trace_no_callbacks s (Some (CloudWatchLogger._cache s)) true env)
      as Htr.
    destruct (CloudWatchLogger.save s (Some (CloudWatchLogger._cache s)) true env)
      as [[s1 tr] completions].
    simpl in Hnone, Ht, Htr. subst completions. simpl.
    split; [exact Htr|].
    unfold CloudWatchLogger.isOpen in *. rewrite Ht. exact Ho.
Qed.

Lemma save_never_signals_completion_witness :
  snd (CloudWatchLogger.save Samples.buffering_logger (Some [Samples.message])
         true Samples.save_env) = []
  /\ CloudWatchLogger.callbacks
       (snd (CloudWatchLogger.close Samples.buffering_logger true Samples.save_env))
     = []
  /\ CloudWatchLogger.isOpen
       (fst (CloudWatchLogger.close Samples.buffering_logger true Samples.save_env))
     = true.
Proof.
  assert (Hr : CloudWatchLogger.reachable Samples.buffering_logger).
  { apply CloudWatchLogger.reach_cache, CloudWatchLogger.reach_open.
    apply CloudWatchLogger.reach_new; reflexivity. }
  destruct (save_never_signals_completion Samples.buffering_logger Hr eq_refl)
    as [Hsave Hclose].
  split.
  - apply Hsave. discriminate.
  - apply Hclose. discriminate.
Defined.

(** ** LambdaClient *)
Section ClientProperties.
Import LambdaClient.

Variable P : Platform.

Lemma on_reply_no_remote_call correlationId callback reply :
  remote_calls (on_reply P correlationId callback reply) = [].
Proof.
  unfold on_reply.
  destruct callback; simpl; destruct reply as [err|[]]; try reflexivity.
  destruct (JSON_parse P s); reflexivity.
Qed.

(** [invoke] on a client that holds its connection and its SDK handle, with
    an argument object. *)
Lemma invoke_on_object s h invocationType cmd correlationId address fields c
    callback reply :
  _connection s = Some c -> _lambda s = Some tt -> h !! address = Some fields ->
  invoke P s h invocationType (Some cmd) correlationId (ArgObject address)
    callback reply
  = (<[fresh (dom h) := payload_fields P cmd correlationId fields]> h,
     Invoke {| InvocationRequest.FunctionName := getArn c;
               InvocationRequest.InvocationType := invocationType;
               InvocationRequest.LogType := "None";
               InvocationRequest.Payload :=
                 JSON_stringify P (VObj (payload_fields P cmd correlationId fields)) |}
     :: on_reply P correlationId callback reply).
Proof.
  intros Hc Hl Ha. unfold invoke, clone. rewrite Ha, Hc, Hl.
  rewrite lookup_insert_eq. simpl. rewrite insert_insert_eq. reflexivity.
Qed.

End ClientProperties.

(** C3 (as claimed it fails): an empty command name is not rejected; the
    function is invoked remotely with [cmd] set to the empty string. *)
Lemma invoke_empty_command_calls_remote :
  LambdaClient.remote_calls
    (snd (LambdaClient.invoke Samples.platform Samples.opened_client Samples.heap
            "RequestResponse" (Some "") (Some "123") (LambdaClient.ArgObject 0)
            true (LambdaClient.InvokeDone (VStr "null"))))
  <> [].
Proof. vm_compute. discriminate. Qed.

(** C3 (amended): a call to [invoke] whose command is null issues no remote
    invocation and leaves the store alone; the missing-command error (an
    UnknownException with code NO_COMMAND) is handed to the callback, once,
    or written to the logger when no callback was supplied. *)
Theorem invoke_without_command :
  forall (P : Platform) (s : LambdaClient.State)
         (h : gmap nat (list (string * JsValue))) (invocationType : string)
         (correlationId : option string) (args : LambdaClient.Arg)
         (callback : bool) (reply : LambdaClient.InvokeReply),
    let '(h', tr) :=
      LambdaClient.invoke P s h invocationType None correlationId args callback
        reply in
    h' = h
    /\ LambdaClient.remote_calls tr = []
    /\ tr = (if callback
             then [LambdaClient.Callback (Some LambdaClient.NO_COMMAND) VNull]
             else [LambdaClient.LoggerError correlationId LambdaClient.NO_COMMAND
                     "Failed to call %s"])
    /\ error_class LambdaClient.NO_COMMAND = Some UnknownException
    /\ error_code LambdaClient.NO_COMMAND = "NO_COMMAND".
Proof.
  intros P s h invocationType correlationId args callback reply.
  unfold LambdaClient.invoke. destruct callback; repeat split; reflexivity.
Qed.

(** C4 (code defect): when the invocation succeeds with a string payload
    that does not decode, the callback is invoked twice: first with the
    DESERIALIZATION_FAILED error, then, because the catch block does not
    return, with no error and the raw payload as the result. *)
Theorem invoke_undecodable_payload_calls_back_twice :
  forall (P : Platform) (s : LambdaClient.State)
         (h : gmap nat (list (string * JsValue))) (invocationType cmd : string)
         (correlationId : option string) (address : nat)
         (fields : list (string * JsValue)) (c : AwsConnectionParams)
         (text : string) (err : JsError),
    LambdaClient._connection s = Some c ->
    LambdaClient._lambda s = Some tt ->
    h !! address = Some fields ->
    JSON_parse P text = inl err ->
    LambdaClient.callbacks
      (snd (LambdaClient.invoke P s h invocationType (Some cmd) correlationId
              (LambdaClient.ArgObject address) true
              (LambdaClient.InvokeDone (VStr text))))
    = [ (Some (LambdaClient.DESERIALIZATION_FAILED correlationId err), VNull);
        (None, VStr text) ].
Proof.
  intros P s h ty cmd cid address fields c text err Hc Hl Ha Hp.
  rewrite (invoke_on_object P s h ty cmd cid address fields c true _ Hc Hl Ha).
  unfold LambdaClient.on_reply. simpl. rewrite Hp. reflexivity.
Qed.

Lemma invoke_undecodable_payload_calls_back_twice_witness :
  LambdaClient.callbacks
    (snd (LambdaClient.invoke Samples.platform Samples.opened_client Samples.heap
            "RequestResponse" (Some "get_mydata") (Some "123")
            (LambdaClient.ArgObject 0) true
            (LambdaClient.InvokeDone (VStr "{"))))
  = [ (Some (LambdaClient.DESERIALIZATION_FAILED (Some "123")
               (ForeignError "SyntaxError" "Unexpected token in JSON")), VNull);
      (None, VStr "{") ].
Proof.
  apply (invoke_undecodable_payload_calls_back_twice Samples.platform
           Samples.opened_client Samples.heap "RequestResponse" "get_mydata"
           (Some "123") 0 [("id", VStr "42")] Samples.connection "{"
           (ForeignError "SyntaxError" "Unexpected token in JSON"));
    reflexivity.
Defined.

(** A transport failure, for comparison: one callback, with CALL_FAILED. *)
Example invoke_transport_failure :
  LambdaClient.callbacks
    (snd (LambdaClient.invoke Samples.platform Samples.opened_client Samples.heap
            "RequestResponse" (Some "get_mydata") (Some "123")
            (LambdaClient.ArgObject 0) true
            (LambdaClient.InvokeFailed (ForeignError "TimeoutError" "timed out"))))
  = [ (Some (LambdaClient.CALL_FAILED (Some "123")
               (ForeignError "TimeoutError" "timed out")), VNull) ].
Proof. vm_compute. reflexivity. Qed.

(** C6: with a command, [invoke] serializes a clone of the argument object
    extended with [cmd] and with [correlation_id], which is the supplied
    correlation id, or a generated one when none (null or empty) is
    supplied; exactly that payload is sent, and neither the caller's object
    nor any other object of the store is changed. *)
Theorem invoke_payload_is_extended_clone :
  forall (P : Platform) (s : LambdaClient.State)
         (h : gmap nat (list (string * JsValue))) (invocationType cmd : string)
         (correlationId : option string) (address : nat)
         (fields : list (string * JsValue)) (c : AwsConnectionParams)
         (callback : bool) (reply : LambdaClient.InvokeReply),
    LambdaClient._connection s = Some c ->
    LambdaClient._lambda s = Some tt ->
    h !! address = Some fields ->
    let '(h', tr) :=
      LambdaClient.invoke P s h invocationType (Some cmd) correlationId
        (LambdaClient.ArgObject address) callback reply in
    let id :=
      match correlationId with
      | Some given => if String.eqb given "" then nextShort P else given
      | None => nextShort P
      end in
    (exists request,
        LambdaClient.remote_calls tr = [request]
        /\ LambdaClient.InvocationRequest.Payload request
           = JSON_stringify P
               (VObj (set_property "correlation_id" (VStr id)
                        (set_property "cmd" (VStr cmd) fields))))
    /\ h' !! address = Some fields
    /\ forall other, is_Some (h !! other) -> h' !! other = h !! other.
Proof.
  intros P s h ty cmd cid address fields c callback reply Hc Hl Ha.
  rewrite (invoke_on_object P s h ty cmd cid address fields c callback reply
             Hc Hl Ha).
  assert (Hfresh : forall other, is_Some (h !! other) -> fresh (dom h) <> other).
  { intros other Hsome Heq. apply (is_fresh (dom h)).
    rewrite Heq. apply elem_of_dom. exact Hsome. }
  split; [|split].
  - eexists. split.
    + simpl. rewrite on_reply_no_remote_call. reflexivity.
    + simpl. unfold LambdaClient.payload_fields, LambdaClient.correlation_of, truthy.
      destruct cid as [given|]; [destruct (String.eqb given "")|]; reflexivity.
  - rewrite lookup_insert_ne; [exact Ha|]. apply Hfresh. rewrite Ha. eauto.
  - intros other Hsome. rewrite lookup_insert_ne; [reflexivity|].
    apply Hfresh, Hsome.
Qed.

Lemma invoke_payload_is_extended_clone_witness :
  (exists request,
      LambdaClient.remote_calls
        (snd (LambdaClient.invoke Samples.platform Samples.opened_client
                Samples.heap "RequestResponse" (Some "ping") None
                (LambdaClient.ArgObject 0) true
                (LambdaClient.InvokeDone (VStr "null"))))
      = [request]
      /\ LambdaClient.InvocationRequest.Payload request
         = JSON_stringify Samples.platform
             (VObj [("id", VStr "42"); ("cmd", VStr "ping");
                    ("correlation_id", VStr "f3a91c")]))
  /\ fst (LambdaClient.invoke Samples.platform Samples.opened_client
            Samples.heap "RequestResponse" (Some "ping") None
            (LambdaClient.ArgObject 0) true
            (LambdaClient.InvokeDone (VStr "null"))) !! 0
     = Some [("id", VStr "42")].
Proof.
  pose proof (invoke_payload_is_extended_clone Samples.platform
                Samples.opened_client Samples.heap "RequestResponse" "ping" None 0
                [("id", VStr "42")] Samples.connection true
                (LambdaClient.InvokeDone (VStr "null"))
                eq_refl eq_refl eq_refl) as H.
  destruct (LambdaClient.invoke Samples.platform Samples.opened_client
              Samples.heap "RequestResponse" (Some "ping") None
              (LambdaClient.ArgObject 0) true
              (LambdaClient.InvokeDone (VStr "null"))) as [h' tr].
  destruct H as (Hreq & Hsame & _).
  split; [exact Hreq | exact Hsame].
Defined.

(** The payload of that call, as text. *)
Example ping_payload :
  map LambdaClient.InvocationRequest.Payload
    (LambdaClient.remote_calls
       (snd (LambdaClient.call Samples.platform Samples.opened_client Samples.heap
               (Some "ping") None LambdaClient.ArgUndefined true
               (LambdaClient.InvokeDone (VStr "null")))))
  = [ Samples.stringify
        (VObj [("cmd", VStr "ping"); ("correlation_id", VStr "f3a91c")]) ].
Proof. vm_compute. reflexivity. Qed.

(** ** LambdaFunction *)
Section FunctionProperties.
Import LambdaFunction.

Variable P : Platform.

(** No command field: NO_COMMAND, and nothing else happens. *)
Lemma execute_without_command s event :
  is_nullish (get_property "cmd" event) = true ->
  execute P s event
  = [Done (Some (NO_COMMAND (get_property "correlation_id" event))) VNull].
Proof. unfold execute. intros ->. reflexivity. Qed.

(** A command under which the action table yields nothing: NO_ACTION, with
    the command, as a string, among the details. *)
Lemma execute_unknown_command s event :
  is_nullish (get_property "cmd" event) = false ->
  actions_get s (ToString P (get_property "cmd" event)) = None ->
  execute P s event
  = [Done (Some (NO_ACTION P (get_property "correlation_id" event)
                   (get_property "cmd" event))) VNull]
  /\ error_details (NO_ACTION P (get_property "correlation_id" event)
                      (get_property "cmd" event))
     = [("command", VStr (ToString P (get_property "cmd" event)))].
Proof.
  unfold execute. intros Hcmd ->. rewrite Hcmd. split; [reflexivity|].
  unfold NO_ACTION, detail_value. rewrite Hcmd. reflexivity.
Qed.

(** A registered command: the stored action runs on the event and each of
    its calls to the callback reaches [context.done] as it is. *)
Lemma execute_registered_command s event r :
  is_nullish (get_property "cmd" event) = false ->
  _actions s !! ToString P (get_property "cmd" event) = Some r ->
  execute P s event
  = map (fun '(err, result) => Done err result) (actionCurl r event).
Proof. unfold execute, actions_get. intros -> ->. reflexivity. Qed.

End FunctionProperties.

(** C5 (code defect): a command that names a function inherited from
    Object.prototype (toString, constructor, valueOf, ...) and has no
    registered action is not answered with NO_ACTION: the lookup in the
    action table finds the inherited function and [execute] calls it.  For
    toString and constructor the call returns, for the other names it throws
    a TypeError out of [execute]; in no case is [context.done] invoked. *)
Theorem execute_inherited_name_is_not_rejected :
  forall (P : Platform) (s : LambdaFunction.State)
         (event : list (string * JsValue)) (name : string),
    get_property "cmd" event = VStr name ->
    name ∈ LambdaFunction.Object_prototype_functions ->
    LambdaFunction._actions s !! name = None ->
    (forall err result,
        ~ In (LambdaFunction.Done err result) (LambdaFunction.execute P s event))
    /\ (name = "toString" \/ name = "constructor" ->
        LambdaFunction.execute P s event = [LambdaFunction.InheritedCall name])
    /\ (name <> "toString" -> name <> "constructor" ->
        exists what,
          LambdaFunction.execute P s event
          = [LambdaFunction.InheritedCall name; LambdaFunction.Thrown what]).
Proof.
  intros P s event name Hcmd Hin Hnone.
  assert (Hexec : LambdaFunction.execute P s event
                  = LambdaFunction.inherited_call name).
  { unfold LambdaFunction.execute, LambdaFunction.actions_get.
    rewrite Hcmd. simpl. rewrite Hnone.
    rewrite bool_decide_eq_true_2 by exact Hin. reflexivity. }
  rewrite Hexec. unfold LambdaFunction.inherited_call.
  split; [|split].
  - intros err result. destruct (bool_decide _); simpl; intuition discriminate.
  - intros Hname. rewrite bool_decide_eq_true_2; [reflexivity|].
    apply list_elem_of_In. destruct Hname as [-> | ->]; simpl; auto.
  - intros Hts Hc. rewrite bool_decide_eq_false_2; [eexists; reflexivity|].
    intros Hmem. apply list_elem_of_In in Hmem. simpl in Hmem.
    destruct Hmem as [H | [H | []]]; congruence.
Qed.

Lemma execute_inherited_name_is_not_rejected_witness :
  LambdaFunction.execute Samples.platform LambdaFunction.new
    [("cmd", VStr "toString"); ("correlation_id", VStr "123")]
  = [LambdaFunction.InheritedCall "toString"].
Proof.
  refine (proj1 (proj2 (execute_inherited_name_is_not_rejected Samples.platform
                          LambdaFunction.new
                          [("cmd", VStr "toString"); ("correlation_id", VStr "123")]
                          "toString" eq_refl _ eq_refl)) (or_introl eq_refl)).
  apply (bool_decide_unpack _). vm_compute. exact I.
Defined.

(** An inherited function that needs a receiver: the call throws. *)
Example execute_hasOwnProperty :
  LambdaFunction.execute Samples.platform LambdaFunction.new
    [("cmd", VStr "hasOwnProperty"); ("correlation_id", VStr "123")]
  = [LambdaFunction.InheritedCall "hasOwnProperty";
     LambdaFunction.Thrown "TypeError: Cannot convert undefined or null to object"].
Proof. vm_compute. reflexivity. Qed.

(** The three outcomes of [execute] on a function with one action. *)
Example execute_ping :
  match LambdaFunction.registerAction LambdaFunction.new "ping" None
          (Some Samples.pong) with
  | LambdaFunction.Registered_ s =>
      LambdaFunction.execute Samples.platform s Samples.ping
        = [LambdaFunction.Done None (VStr "pong")]
      /\ LambdaFunction.execute Samples.platform s [("correlation_id", VStr "123")]
         = [LambdaFunction.Done
              (Some (ApplicationException BadRequestException (VStr "123")
                       "NO_COMMAND" "Cmd parameter is missing" None []))
              VNull]
      /\ LambdaFunction.execute Samples.platform s
           [("cmd", VStr "pong"); ("correlation_id", VStr "123")]
         = [LambdaFunction.Done
              (Some (ApplicationException BadRequestException (VStr "123")
                       "NO_ACTION" "Action pong was not found" None
                       [("command", VStr "pong")]))
              VNull]
  | _ => False
  end.
Proof. vm_compute. repeat split; reflexivity. Qed.

(** ** Amazon Resource Names *)
Section ArnProperties.
Import Arn.

Lemma split_at_Some c text a b :
  split_at c text = Some (a, b) ->
  text = a +:+ String c b /\ contains c a = false.
Proof.
  revert a b. induction text as [|x rest IH]; intros a b; simpl; [discriminate|].
  destruct (Ascii.eqb x c) eqn:Hx.
  - intros [= <- <-]. apply Ascii.eqb_eq in Hx. subst x. split; reflexivity.
  - destruct (split_at c rest) as [[a' b']|]; [|discriminate].
    intros [= <- <-]. destruct (IH a' b' eq_refl) as [-> Hc].
    split; [reflexivity|]. simpl. rewrite Hx. exact Hc.
Qed.

Lemma split_at_app c a b :
  contains c a = false -> split_at c (a +:+ String c b) = Some (a, b).
Proof.
  induction a as [|x a IH]; simpl.
  - intros _. rewrite Ascii.eqb_refl. reflexivity.
  - intros H. apply orb_false_iff in H as [Hx Ha].
    rewrite Hx, (IH Ha). reflexivity.
Qed.

Lemma parse_toString text a : parse text = Some a -> toString a = text.
Proof.
  unfold parse, toString.
  destruct (split_at ":" text) as [[hd r1]|] eqn:E0; [|discriminate].
  destruct (String.eqb hd "arn") eqn:Ehd; [|discriminate].
  apply String.eqb_eq in Ehd. subst hd.
  destruct (split_at ":" r1) as [[p r2]|] eqn:E1; [|discriminate].
  destruct (split_at ":" r2) as [[sv r3]|] eqn:E2; [|discriminate].
  destruct (split_at ":" r3) as [[rg r4]|] eqn:E3; [|discriminate].
  destruct (split_at ":" r4) as [[ac r5]|] eqn:E4; [|discriminate].
  destruct (split_at "/" r5) as [[rt rs]|] eqn:E5; [|discriminate].
  intros [= <-]. simpl.
  apply split_at_Some in E0 as [-> _], E1 as [-> _], E2 as [-> _],
    E3 as [-> _], E4 as [-> _], E5 as [-> _].
  reflexivity.
Qed.

Lemma toString_parse a : well_formed a = true -> parse (toString a) = Some a.
Proof.
  unfold well_formed. intros H.
  repeat (apply andb_prop in H as [H ?]).
  repeat match goal with
         | Hn : negb _ = true |- _ => apply negb_true_iff in Hn
         end.
  destruct a as [p sv rg ac rt rs]. simpl in *.
  unfold parse.
  change (toString _)
    with ("arn" +:+ String ":" (p +:+ String ":" (sv +:+ String ":"
            (rg +:+ String ":" (ac +:+ String ":" (rt +:+ String "/" rs)))))).
  rewrite (split_at_app ":" "arn") by reflexivity.
  change (String.eqb "arn" "arn") with true. cbv iota.
  rewrite !split_at_app by assumption.
  reflexivity.
Qed.

End ArnProperties.

(** C8: the round-trip law of the ARN parser and composer.  Every string the
    parser accepts, that is every string of the shape
    arn:partition:service:region:account:resourceType/resource, is given
    back unchanged by parsing and re-serializing; and parts that the string
    form keeps apart (no colon in the colon-delimited fields, no slash in
    the resource type) are recovered by parsing their string form. *)
Theorem arn_round_trip :
  (forall (text : string) (a : Arn.t),
      Arn.parse text = Some a -> Arn.toString a = text)
  /\ (forall a : Arn.t,
         Arn.well_formed a = true -> Arn.parse (Arn.toString a) = Some a).
Proof. split; [exact parse_toString | exact toString_parse]. Qed.

Lemma arn_round_trip_witness :
  Arn.parse "arn:aws:logs:us-east-1:123456789012:log-group/my-group/my-stream"
  = Some {| Arn.partition := "aws"; Arn.service := "logs";
            Arn.region := "us-east-1"; Arn.account := "123456789012";
            Arn.resourceType := "log-group";
            Arn.resource := "my-group/my-stream" |}
  /\ Arn.toString
       {| Arn.partition := "aws"; Arn.service := "logs";
          Arn.region := "us-east-1"; Arn.account := "123456789012";
          Arn.resourceType := "log-group";
          Arn.resource := "my-group/my-stream" |}
     = "arn:aws:logs:us-east-1:123456789012:log-group/my-group/my-stream".
Proof.
  split.
  - exact (proj2 arn_round_trip
             {| Arn.partition := "aws"; Arn.service := "logs";
                Arn.region := "us-east-1"; Arn.account := "123456789012";
                Arn.resourceType := "log-group";
                Arn.resource := "my-group/my-stream" |} eq_refl).
  - exact (proj1 arn_round_trip
             "arn:aws:logs:us-east-1:123456789012:log-group/my-group/my-stream"
             _ eq_refl).
Defined.

(** * Further properties *)

(** ** CloudWatchCounters: what a flush sends *)
Section CountersFlush.
Import CloudWatchCounters.

Variables (now : JsDate) (dimensions : list Dimension.t).

Let point (c : Counter.t) : MetricDatum.t := getCounterData c now dimensions.

(** Below the threshold the loop only accumulates. *)
Lemma loop_below_threshold remote cs : forall v,
  length (data v) + length cs < 20 ->
  fold_left (forEach_body remote now dimensions) cs v
  = {| data := data v ++ map point cs; params := params v; calls := calls v;
       deferred := deferred v |}.
Proof.
  induction cs as [|c cs IH]; intros v H; simpl in *.
  - rewrite app_nil_r. destruct v; reflexivity.
  - rewrite IH.
    + unfold forEach_body.
      destruct (Nat.leb_spec 20 (length (data v ++ [getCounterData c now dimensions])))
        as [Hge|Hlt]; [rewrite length_app in Hge; simpl in Hge; lia|].
      simpl. rewrite <- app_assoc. reflexivity.
    + unfold forEach_body.
      destruct (Nat.leb_spec 20 (length (data v ++ [getCounterData c now dimensions])))
        as [Hge|Hlt]; rewrite length_app in *; simpl in *;
        rewrite ?length_app; simpl; lia.
Qed.

(** When every put answers inside the call, without an error, each full
    group of twenty is dropped from the accumulator. *)
Lemma loop_answers_at_once cs : forall v,
  length (data v) < 20 ->
  let total := length (data v) + length cs in
  calls (fold_left (forEach_body (fun _ => ReplyNow None) now dimensions) cs v)
    = calls v ++ replicate (total / 20) (params v)
  /\ data (fold_left (forEach_body (fun _ => ReplyNow None) now dimensions) cs v)
     = drop (20 * (total / 20)) (data v ++ map point cs).
Proof.
  induction cs as [|c cs IH]; intros v Hlt; cbv zeta;
    cbn [fold_left length map].
  - rewrite Nat.add_0_r, Nat.div_small by lia. rewrite Nat.mul_0_r.
    cbn [replicate drop]. rewrite !app_nil_r. split; reflexivity.
  - assert (Hstep :
      (length (data v) = 19
       /\ forEach_body (fun _ => ReplyNow None) now dimensions v c
          = {| data := []; params := params v; calls := calls v ++ [params v];
               deferred := deferred v |})
      \/ (length (data v) < 19
          /\ forEach_body (fun _ => ReplyNow None) now dimensions v c
             = {| data := data v ++ [point c]; params := params v;
                  calls := calls v; deferred := deferred v |})).
    { unfold forEach_body. cbv zeta.
      destruct (Nat.leb_spec 20 (length (data v ++ [getCounterData c now dimensions])))
        as [Hge|Hlt']; rewrite length_app in *; simpl in *.
      - left. split; [lia | reflexivity].
      - right. split; [lia | reflexivity]. }
    destruct Hstep as [[Hd ->] | [Hd ->]].
    + destruct (IH {| data := []; params := params v;
                      calls := calls v ++ [params v]; deferred := deferred v |})
        as [Hc Hdat]; [simpl; lia|].
      cbv zeta in Hc, Hdat. cbn [data calls params length] in Hc, Hdat.
      rewrite Hc, Hdat. cbn [app Nat.add].
      replace (length (data v) + S (length cs)) with (1 * 20 + length cs) by lia.
      rewrite Nat.div_add_l by lia.
      split.
      * rewrite <- app_assoc. reflexivity.
      * replace (20 * (1 + length cs / 20)) with (20 + 20 * (length cs / 20)) by lia.
        rewrite <- drop_drop.
        replace (data v ++ point c :: map point cs)
          with ((data v ++ [point c]) ++ map point cs)
          by (rewrite <- app_assoc; reflexivity).
        rewrite drop_app_length'; [reflexivity|].
        rewrite length_app. simpl. lia.
    + destruct (IH {| data := data v ++ [point c]; params := params v;
                      calls := calls v; deferred := deferred v |})
        as [Hc Hdat]; [simpl; rewrite length_app; simpl; lia|].
      cbv zeta in Hc, Hdat. cbn [data calls params] in Hc, Hdat.
      rewrite length_app in Hc, Hdat. cbn [length] in Hc, Hdat.
      rewrite Hc, Hdat.
      replace (length (data v) + 1 + length cs)
        with (length (data v) + S (length cs)) by lia.
      split; [reflexivity|].
      rewrite <- app_assoc. reflexivity.
Qed.

(** When no put answers inside the call without an error, the accumulator
    is never reset during the loop. *)
Lemma loop_never_reset remote cs : forall v,
  (forall k, remote k <> ReplyNow None) ->
  calls (fold_left (forEach_body remote now dimensions) cs v)
    = calls v
      ++ replicate ((length (data v) + length cs - 19) - (length (data v) - 19))
           (params v)
  /\ data (fold_left (forEach_body remote now dimensions) cs v)
     = data v ++ map point cs.
Proof.
  intros v Hr. revert v.
  induction cs as [|c cs IH]; intros v; simpl.
  - rewrite Nat.add_0_r, Nat.sub_diag. simpl. rewrite !app_nil_r.
    split; reflexivity.
  - destruct (IH (forEach_body remote now dimensions v c)) as [Hc Hd].
    rewrite Hc, Hd. clear Hc Hd IH.
    rewrite forEach_body_params.
    unfold forEach_body. cbv zeta.
    destruct (Nat.leb_spec 20 (length (data v ++ [getCounterData c now dimensions])))
      as [Hge|Hlt]; rewrite length_app in *; simpl in *.
    + assert (Hdata :
        data (match remote (length (calls v)) with
              | ReplyNow None =>
                  {| data := []; params := params v;
                     calls := calls v ++ [params v]; deferred := deferred v |}
              | ReplyNow (Some _) =>
                  {| data := data v ++ [getCounterData c now dimensions];
                     params := params v; calls := calls v ++ [params v];
                     deferred := deferred v |}
              | ReplyLater r =>
                  {| data := data v ++ [getCounterData c now dimensions];
                     params := params v; calls := calls v ++ [params v];
                     deferred := deferred v ++ [r] |}
              end) = data v ++ [getCounterData c now dimensions]
        /\ calls (match remote (length (calls v)) with
              | ReplyNow None =>
                  {| data := []; params := params v;
                     calls := calls v ++ [params v]; deferred := deferred v |}
              | ReplyNow (Some _) =>
                  {| data := data v ++ [getCounterData c now dimensions];
                     params := params v; calls := calls v ++ [params v];
                     deferred := deferred v |}
              | ReplyLater r =>
                  {| data := data v ++ [getCounterData c now dimensions];
                     params := params v; calls := calls v ++ [params v];
                     deferred := deferred v ++ [r] |}
              end) = calls v ++ [params v]).
      { pose proof (Hr (length (calls v))) as Hk.
        destruct (remote (length (calls v))) as [[e|]|r]; simpl; auto.
        congruence. }
      destruct Hdata as [-> ->]. rewrite length_app. simpl.
      split.
      * rewrite <- app_assoc. f_equal.
        change ([params v] ++ ?l) with (replicate 1 (params v) ++ l).
        rewrite <- replicate_add. f_equal. lia.
      * rewrite <- app_assoc. reflexivity.
    + simpl. rewrite length_app. simpl. split.
      * f_equal. f_equal. lia.
      * rewrite <- app_assoc. reflexivity.
Qed.

(** Whatever the service answers, the accumulator holds the data points of
    a tail of the batch, in order. *)
Lemma loop_data_suffix remote cs : forall v,
  exists k, data (fold_left (forEach_body remote now dimensions) cs v)
            = drop k (data v ++ map point cs).
Proof.
  induction cs as [|c cs IH]; intros v; simpl.
  - exists 0. rewrite app_nil_r. reflexivity.
  - destruct (IH (forEach_body remote now dimensions v c)) as [k Hk].
    rewrite Hk. unfold forEach_body. cbv zeta.
    destruct (_ <=? _)%nat; [destruct (remote _) as [[e|]|r]|]; simpl;
      try (exists k; rewrite <- app_assoc; reflexivity).
    exists (length (data v ++ [point c]) + k).
    replace (data v ++ point c :: map point cs)
      with ((data v ++ [point c]) ++ map point cs)
      by (rewrite <- app_assoc; reflexivity).
    rewrite <- drop_drop, drop_app_length. reflexivity.
Qed.

End CountersFlush.

(** X1: a batch of fewer than twenty counters is flushed by one put that
    carries the data point of every counter, in order, under the configured
    namespace and with the InstanceID dimension; an empty batch issues no
    put. *)
Theorem save_small_batch :
  forall (s : CloudWatchCounters.State) (remote : nat -> Reply) (now : JsDate)
         (counters : list CloudWatchCounters.Counter.t),
    CloudWatchCounters._client s = Some tt ->
    length counters < 20 ->
    CloudWatchCounters.save s remote now counters
    = match counters with
      | [] => []
      | _ =>
          [ Some {| CloudWatchCounters.PutMetricDataInput.MetricData :=
                      map (fun c => CloudWatchCounters.getCounterData c now
                                      (CloudWatchCounters.dimensions_of s))
                        counters;
                    CloudWatchCounters.PutMetricDataInput.Namespace :=
                      CloudWatchCounters._source s |} ]
      end.
Proof.
  intros s remote now counters Hc Hlen.
  unfold CloudWatchCounters.save, CloudWatchCounters.save_loop. rewrite Hc.
  rewrite loop_below_threshold by (simpl; lia). simpl.
  destruct counters; reflexivity.
Qed.

Lemma save_small_batch_witness :
  CloudWatchCounters.sizes
    (CloudWatchCounters.save Samples.opened_counters Samples.answers_later
       Samples.now (replicate 19 (Samples.counter CloudWatchCounters.Interval)))
  = [Some 19].
Proof.
  rewrite (save_small_batch Samples.opened_counters Samples.answers_later
             Samples.now (replicate 19 (Samples.counter CloudWatchCounters.Interval))
             eq_refl ltac:(vm_compute; lia)).
  reflexivity.
Defined.

(** X2: when the service answers every put inside the call and without an
    error, a batch of n counters produces n / 20 puts without parameters and,
    if n is not a multiple of twenty, one put with the data points of the
    last n mod 20 counters; the first 20 * (n / 20) data points are never
    sent. *)
Theorem save_answers_at_once :
  forall (s : CloudWatchCounters.State) (now : JsDate)
         (counters : list CloudWatchCounters.Counter.t),
    CloudWatchCounters._client s = Some tt ->
    let n := length counters in
    CloudWatchCounters.save s (fun _ => ReplyNow None) now counters
    = replicate (n / 20) None
      ++ (if (n mod 20 =? 0)%nat then []
          else
            [ Some {| CloudWatchCounters.PutMetricDataInput.MetricData :=
                        map (fun c => CloudWatchCounters.getCounterData c now
                                        (CloudWatchCounters.dimensions_of s))
                          (drop (20 * (n / 20)) counters);
                      CloudWatchCounters.PutMetricDataInput.Namespace :=
                        CloudWatchCounters._source s |} ]).
Proof.
  intros s now counters Hc n. subst n.
  unfold CloudWatchCounters.save, CloudWatchCounters.save_loop. rewrite Hc.
  destruct (loop_answers_at_once now (CloudWatchCounters.dimensions_of s) counters
              {| CloudWatchCounters.data := []; CloudWatchCounters.params := None;
                 CloudWatchCounters.calls := [];
                 CloudWatchCounters.deferred := [] |})
    as [Hcalls Hdata]; [simpl; lia|].
  cbv zeta in Hcalls, Hdata.
  cbn [CloudWatchCounters.data CloudWatchCounters.calls CloudWatchCounters.params
       length app Nat.add] in Hcalls, Hdata.
  unfold CloudWatchCounters.dimensions_of in *.
  rewrite Hcalls, Hdata. rewrite skipn_map.
  rewrite length_map, length_drop.
  pose proof (Nat.div_mod_eq (length counters) 20) as Hdm.
  destruct (Nat.eqb_spec (length counters mod 20) 0) as [Hz|Hnz].
  - destruct (Nat.ltb_spec 0 (length counters - 20 * (length counters / 20)));
      [lia | rewrite app_nil_r; reflexivity].
  - destruct (Nat.ltb_spec 0 (length counters - 20 * (length counters / 20)));
      [reflexivity | lia].
Qed.

Lemma save_answers_at_once_witness :
  CloudWatchCounters.sizes
    (CloudWatchCounters.save Samples.opened_counters (fun _ => ReplyNow None)
       Samples.now (replicate 40 (Samples.counter CloudWatchCounters.Increment)))
  = [None; None].
Proof.
  rewrite (save_answers_at_once Samples.opened_counters Samples.now
             (replicate 40 (Samples.counter CloudWatchCounters.Increment)) eq_refl).
  vm_compute. reflexivity.
Defined.

(** X3: when no put is answered inside the call without an error (the
    service answers later, or with errors), the accumulator is never emptied:
    a non-empty batch of n counters ends with one put that carries all n data
    points, preceded by n - 19 puts without parameters when n reaches
    twenty. *)
Theorem save_answers_later :
  forall (s : CloudWatchCounters.State) (remote : nat -> Reply) (now : JsDate)
         (counters : list CloudWatchCounters.Counter.t),
    CloudWatchCounters._client s = Some tt ->
    (forall k, remote k <> ReplyNow None) ->
    counters <> [] ->
    CloudWatchCounters.save s remote now counters
    = replicate (length counters - 19) None
      ++ [ Some {| CloudWatchCounters.PutMetricDataInput.MetricData :=
                     map (fun c => CloudWatchCounters.getCounterData c now
                                     (CloudWatchCounters.dimensions_of s))
                       counters;
                   CloudWatchCounters.PutMetricDataInput.Namespace :=
                     CloudWatchCounters._source s |} ].
Proof.
  intros s remote now counters Hc Hr Hne.
  unfold CloudWatchCounters.save, CloudWatchCounters.save_loop. rewrite Hc.
  destruct (loop_never_reset now (CloudWatchCounters.dimensions_of s) remote counters
              {| CloudWatchCounters.data := []; CloudWatchCounters.params := None;
                 CloudWatchCounters.calls := [];
                 CloudWatchCounters.deferred := [] |} Hr)
    as [Hcalls Hdata].
  simpl in Hcalls, Hdata. unfold CloudWatchCounters.dimensions_of in *.
  rewrite Hcalls, Hdata, length_map, Nat.sub_0_r.
  destruct counters as [|c cs]; [congruence|]. reflexivity.
Qed.

Lemma save_answers_later_witness :
  CloudWatchCounters.sizes
    (CloudWatchCounters.save Samples.opened_counters Samples.answers_later
       Samples.now (replicate 21 (Samples.counter CloudWatchCounters.LastValue)))
  = [None; None; Some 21].
Proof.
  rewrite (save_answers_later Samples.opened_counters Samples.answers_later
             Samples.now (replicate 21 (Samples.counter CloudWatchCounters.LastValue))
             eq_refl ltac:(discriminate) ltac:(discriminate)).
  vm_compute. reflexivity.
Defined.

(** X4: a component without client issues nothing.  Otherwise, whatever the
    service answers, at most one request of a flush carries data, and it is
    the last one: every earlier request is issued without parameters.  The
    data of that last request are the data points of a non-empty tail of the
    batch, in order, under the configured namespace. *)
Theorem save_requests_shape :
  forall (s : CloudWatchCounters.State) (remote : nat -> Reply) (now : JsDate)
         (counters : list CloudWatchCounters.Counter.t),
    (CloudWatchCounters._client s = None ->
     CloudWatchCounters.save s remote now counters = [])
    /\ exists m,
      CloudWatchCounters.save s remote now counters = replicate m None
      \/ exists k,
           k < length counters
           /\ CloudWatchCounters.save s remote now counters
              = replicate m None
                ++ [ Some {| CloudWatchCounters.PutMetricDataInput.MetricData :=
                               map (fun c => CloudWatchCounters.getCounterData c now
                                               (CloudWatchCounters.dimensions_of s))
                                 (drop k counters);
                             CloudWatchCounters.PutMetricDataInput.Namespace :=
                               CloudWatchCounters._source s |} ].
Proof.
  intros s remote now counters.
  unfold CloudWatchCounters.save.
  destruct (CloudWatchCounters._client s);
    [split; [discriminate|] | split; [reflexivity | exists 0; left; reflexivity]].
  fold (CloudWatchCounters.dimensions_of s).
  set (dims := CloudWatchCounters.dimensions_of s).
  cbv zeta.
  pose proof (loop_calls_undefined remote now dims counters
                {| CloudWatchCounters.data := []; CloudWatchCounters.params := None;
                   CloudWatchCounters.calls := [];
                   CloudWatchCounters.deferred := [] |} eq_refl
                (List.Forall_nil _)) as Hall.
  destruct (loop_data_suffix now dims remote counters
              {| CloudWatchCounters.data := []; CloudWatchCounters.params := None;
                 CloudWatchCounters.calls := [];
                 CloudWatchCounters.deferred := [] |}) as [k Hk].
  simpl in Hk. fold (CloudWatchCounters.save_loop remote now dims counters) in *.
  assert (Hrep : CloudWatchCounters.calls
                   (CloudWatchCounters.save_loop remote now dims counters)
                 = replicate
                     (length (CloudWatchCounters.calls
                                (CloudWatchCounters.save_loop remote now dims counters)))
                     None).
  { induction Hall as [|x l <- _ IH]; simpl; [reflexivity | f_equal; exact IH]. }
  exists (length (CloudWatchCounters.calls
                    (CloudWatchCounters.save_loop remote now dims counters))).
  rewrite <- Hrep.
  destruct (Nat.ltb_spec 0
              (length (CloudWatchCounters.data
                         (CloudWatchCounters.save_loop remote now dims counters))))
    as [Hpos|Hzero]; [right | left; reflexivity].
  exists k. rewrite Hk in *. rewrite skipn_map in *.
  rewrite length_map, length_drop in Hpos.
  split; [lia | reflexivity].
Qed.

(** X5: a first [open] whose connection resolution fails leaves the
    component reporting itself open but without a client: every flush is
    silently dropped, and a further [open] changes nothing, so only a
    [close] followed by an [open] can bring the client up. *)
Theorem failed_open_drops_every_flush :
  forall (s : CloudWatchCounters.State) (correlationId : option string)
         (env : CloudWatchCounters.OpenEnv) (err : JsError),
    CloudWatchCounters._opened s = false ->
    CloudWatchCounters._client s = None ->
    resolve_err (CloudWatchCounters.resolver env) = Some err ->
    let after := fst (CloudWatchCounters.open s correlationId env) in
    snd (CloudWatchCounters.open s correlationId env)
      = [CloudWatchCounters.Resolve correlationId;
         CloudWatchCounters.Callback (Some err)]
    /\ CloudWatchCounters.isOpen after = true
    /\ (forall remote now counters,
          CloudWatchCounters.save after remote now counters = [])
    /\ (forall correlationId' env',
          fst (CloudWatchCounters.open after correlationId' env') = after)
    /\ (forall correlationId' env',
          resolve_err (CloudWatchCounters.resolver env') = None ->
          is_Some (resolve_connection (CloudWatchCounters.resolver env')) ->
          CloudWatchCounters.constructor_error env' = None ->
          CloudWatchCounters._client
            (fst (CloudWatchCounters.open (fst (CloudWatchCounters.close after))
                    correlationId' env')) = Some tt).
Proof.
  intros s cid env err Ho Hc He.
  unfold CloudWatchCounters.open, CloudWatchCounters.open_begin,
    CloudWatchCounters.open_resolved, CloudWatchCounters.isOpen,
    CloudWatchCounters.save, CloudWatchCounters.close.
  rewrite Ho, He. simpl. rewrite Hc.
  repeat split.
  intros cid' env' Hn [c Hconn] Hk. rewrite Hn, Hconn, Hk. reflexivity.
Qed.

Lemma failed_open_drops_every_flush_witness :
  CloudWatchCounters.isOpen
    (fst (CloudWatchCounters.open CloudWatchCounters.new (Some "123")
            Samples.counters_env_failing)) = true
  /\ CloudWatchCounters.save
       (fst (CloudWatchCounters.open CloudWatchCounters.new (Some "123")
               Samples.counters_env_failing))
       Samples.answers_at_once Samples.now Samples.batch45 = [].
Proof.
  pose proof (failed_open_drops_every_flush CloudWatchCounters.new (Some "123")
                Samples.counters_env_failing
                (ForeignError "NO_CONNECTION" "no connection configured")
                eq_refl eq_refl eq_refl) as H.
  cbv zeta in H. destruct H as (_ & Ho & Hs & _).
  split; [exact Ho | apply Hs].
Defined.

(** X6: [close] releases the client and lowers the flag whatever the state:
    afterwards a flush issues nothing, and the next [open] asks the resolver
    again, exactly once. *)
Theorem close_then_reopen_resolves_again :
  forall (s : CloudWatchCounters.State),
    let closed := fst (CloudWatchCounters.close s) in
    CloudWatchCounters.isOpen closed = false
    /\ (forall remote now counters,
          CloudWatchCounters.save closed remote now counters = [])
    /\ (forall correlationId env,
          CloudWatchCounters.resolutions
            (snd (CloudWatchCounters.open closed correlationId env)) = 1).
Proof.
  intros s. cbv zeta. repeat split.
  intros cid env.
  unfold CloudWatchCounters.open, CloudWatchCounters.open_begin,
    CloudWatchCounters.open_resolved, CloudWatchCounters.close. simpl.
  destruct (resolve_err _); [reflexivity|].
  destruct (resolve_connection _); [|reflexivity].
  destruct (CloudWatchCounters.constructor_error env); reflexivity.
Qed.

(** ** CloudWatchLogger: opening, flushing and closing *)
Section LoggerLifecycle.
Import CloudWatchLogger.

Lemma open_timer_spec s tr :
  _timer s = None ->
  open_timer s tr
  = (set_timer s (Some tt), tr ++ [SetInterval (_interval s); Callback None]).
Proof. unfold open_timer. intros ->. reflexivity. Qed.

Lemma callbacks_app tr1 tr2 :
  callbacks (tr1 ++ tr2) = callbacks tr1 ++ callbacks tr2.
Proof. unfold callbacks. apply omap_app. Qed.

(** The outcome of the third and fourth tasks on a logger without timer. *)
Lemma open_stream_outcome s tr env :
  _timer s = None ->
  callbacks tr = [] ->
  let '(s', tr') := open_stream s tr env in
  _client s' = _client s
  /\ (isOpen s' = true /\ callbacks tr' = [None]
      \/ isOpen s' = false
         /\ (callbacks tr' = [] \/ exists e, callbacks tr' = [Some e])).
Proof.
  intros Ht Htr. unfold open_stream.
  destruct (createLogStream env) as [err|].
  - destruct (String.eqb _ _).
    + destruct (describe_data _) as [streams|].
      * destruct (describe_err _) as [e|].
        -- split; [destruct streams; reflexivity|]. right.
           split; [unfold isOpen; destruct streams; simpl; rewrite Ht; reflexivity|].
           right. exists e. rewrite callbacks_app, !callbacks_app, Htr. reflexivity.
        -- rewrite open_timer_spec by (destruct streams; exact Ht).
           split; [destruct streams; reflexivity|]. left.
           split; [reflexivity|].
           rewrite !callbacks_app, Htr. reflexivity.
      * split; [reflexivity|]. right.
        split; [unfold isOpen; rewrite Ht; reflexivity|].
        left. rewrite !callbacks_app, Htr. reflexivity.
    + split; [reflexivity|]. right.
      split; [unfold isOpen; rewrite Ht; reflexivity|].
      right. exists err. rewrite !callbacks_app, Htr. reflexivity.
  - rewrite open_timer_spec by exact Ht.
    split; [reflexivity|]. left. split; [reflexivity|].
    rewrite !callbacks_app, Htr. reflexivity.
Qed.

End LoggerLifecycle.

(** X7: on a closed logger [open] calls back at most once, and the logger is
    open afterwards exactly when that callback reported success: any error
    from the resolver or the service, and any exception, leave the flush
    timer unset. *)
Theorem open_succeeds_iff_logger_open :
  forall (s : CloudWatchLogger.State) (correlationId : option string)
         (env : CloudWatchLogger.OpenEnv),
    CloudWatchLogger.isOpen s = false ->
    let '(after, tr) := CloudWatchLogger.open s correlationId env in
    (CloudWatchLogger.isOpen after = true
     <-> CloudWatchLogger.callbacks tr = [None])
    /\ length (CloudWatchLogger.callbacks tr) <= 1
    /\ (CloudWatchLogger.isOpen after = true ->
        CloudWatchLogger._client after = Some tt).
Proof.
  intros s cid env Ho.
  assert (Ht : CloudWatchLogger._timer s = None).
  { unfold CloudWatchLogger.isOpen in Ho.
    destruct (CloudWatchLogger._timer s); [discriminate | reflexivity]. }
  assert (Hfinish : forall s2 tr,
            CloudWatchLogger._timer s2 = None ->
            CloudWatchLogger._client s2 = Some tt ->
            CloudWatchLogger.callbacks tr = [] ->
            let '(after, tr') := CloudWatchLogger.open_stream s2 tr env in
            (CloudWatchLogger.isOpen after = true
             <-> CloudWatchLogger.callbacks tr' = [None])
            /\ length (CloudWatchLogger.callbacks tr') <= 1
            /\ (CloudWatchLogger.isOpen after = true ->
                CloudWatchLogger._client after = Some tt)).
  { intros s2 tr Ht2 Hc2 Htr.
    pose proof (open_stream_outcome s2 tr env Ht2 Htr) as H.
    destruct (CloudWatchLogger.open_stream s2 tr env) as [after tr'].
    destruct H as [Hc [[Hopen Hcb] | [Hclosed [Hcb | [e Hcb]]]]];
      rewrite Hcb; simpl; repeat split; try congruence; try lia. }
  unfold CloudWatchLogger.open. rewrite Ho.
  destruct (resolve_err (CloudWatchLogger.resolver env)) as [err|].
  { simpl. unfold CloudWatchLogger.isOpen. simpl. rewrite Ht.
    repeat split; try congruence; try lia. }
  simpl CloudWatchLogger._connection.
  destruct (resolve_connection (CloudWatchLogger.resolver env)) as [c|].
  2:{ simpl. unfold CloudWatchLogger.isOpen. simpl. rewrite Ht.
      repeat split; try congruence; try lia. }
  destruct (CloudWatchLogger.createLogGroup env) as [err|].
  - destruct (String.eqb _ _).
    + apply Hfinish; [exact Ht | reflexivity | reflexivity].
    + simpl. unfold CloudWatchLogger.isOpen. simpl. rewrite Ht.
      repeat split; try congruence; try lia.
  - apply Hfinish; [exact Ht | reflexivity | reflexivity].
Qed.

Lemma open_succeeds_iff_logger_open_witness :
  CloudWatchLogger.isOpen Samples.opened_logger = true
  /\ CloudWatchLogger._client Samples.opened_logger = Some tt.
Proof.
  pose proof (open_succeeds_iff_logger_open (CloudWatchLogger.new 300000)
                (Some "123") Samples.logger_env eq_refl) as H.
  unfold Samples.opened_logger.
  destruct (CloudWatchLogger.open (CloudWatchLogger.new 300000) (Some "123")
              Samples.logger_env) as [after tr] eqn:E.
  destruct H as (Hiff & _ & Hcl).
  assert (Hcb : CloudWatchLogger.callbacks tr = [None]).
  { apply (f_equal snd) in E. simpl in E. rewrite <- E. reflexivity. }
  simpl. split; [apply Hiff, Hcb | apply Hcl, Hiff, Hcb].
Defined.

(** X8: an "already exists" answer to [createLogGroup] counts as success
    ([open] goes on exactly as if the group had just been created), while
    any other error from it ends [open] there: the error is handed to the
    callback and no stream is created. *)
Theorem open_tolerates_existing_group :
  forall (s : CloudWatchLogger.State) (correlationId : option string)
         (env : CloudWatchLogger.OpenEnv) (err : JsError),
    CloudWatchLogger.createLogGroup env = Some err ->
    let created :=
      {| CloudWatchLogger.resolver := CloudWatchLogger.resolver env;
         CloudWatchLogger.createLogGroup := None;
         CloudWatchLogger.createLogStream := CloudWatchLogger.createLogStream env;
         CloudWatchLogger.describeLogStreams :=
           CloudWatchLogger.describeLogStreams env |} in
    (error_code err = "ResourceAlreadyExistsException" ->
     CloudWatchLogger.open s correlationId env
     = CloudWatchLogger.open s correlationId created)
    /\ (error_code err <> "ResourceAlreadyExistsException" ->
        CloudWatchLogger.isOpen s = false ->
        resolve_err (CloudWatchLogger.resolver env) = None ->
        is_Some (resolve_connection (CloudWatchLogger.resolver env)) ->
        CloudWatchLogger.callbacks
          (snd (CloudWatchLogger.open s correlationId env)) = [Some err]
        /\ forall g st,
             ~ In (CloudWatchLogger.CreateLogStream g st)
                 (snd (CloudWatchLogger.open s correlationId env))).
Proof.
  intros s cid env err Hg. cbv zeta. split.
  - intros Hcode. unfold CloudWatchLogger.open. simpl. rewrite Hg, Hcode.
    destruct (CloudWatchLogger.isOpen s); [reflexivity|].
    destruct (resolve_err _); [reflexivity|].
    destruct (resolve_connection _); [|reflexivity].
    unfold CloudWatchLogger.open_stream. reflexivity.
  - intros Hcode Ho Hr [c Hconn]. unfold CloudWatchLogger.open.
    rewrite Ho, Hr, Hg. simpl. rewrite Hconn.
    destruct (String.eqb_spec (error_code err)
                CloudWatchLogger.ResourceAlreadyExistsException)
      as [Heq|_]; [contradiction|].
    split; [reflexivity|].
    intros g st Hin. simpl in Hin.
    repeat (destruct Hin as [Hin|Hin]; [discriminate|]). exact Hin.
Qed.

Lemma open_tolerates_existing_group_witness :
  CloudWatchLogger.open (CloudWatchLogger.new 300000) (Some "123") Samples.logger_env
  = CloudWatchLogger.open (CloudWatchLogger.new 300000) (Some "123")
      {| CloudWatchLogger.resolver := Samples.resolved;
         CloudWatchLogger.createLogGroup := None;
         CloudWatchLogger.createLogStream :=
           Some (ForeignError "ResourceAlreadyExistsException" "stream exists");
         CloudWatchLogger.describeLogStreams := Samples.stream_with "token-1" |}.
Proof.
  exact (proj1 (open_tolerates_existing_group (CloudWatchLogger.new 300000)
                  (Some "123") Samples.logger_env
                  (ForeignError "ResourceAlreadyExistsException" "group exists")
                  eq_refl) eq_refl).
Defined.

(** X9: the sequence token a successful [open] leaves behind.  A newly
    created stream starts without token; for an existing stream the token is
    the one of the first stream the service lists, and the token held before
    is kept when the listing is empty. *)
Theorem open_recovers_sequence_token :
  forall (s : CloudWatchLogger.State) (correlationId : option string)
         (env : CloudWatchLogger.OpenEnv),
    CloudWatchLogger.isOpen s = false ->
    CloudWatchLogger.isOpen (fst (CloudWatchLogger.open s correlationId env)) = true ->
    CloudWatchLogger._lastToken (fst (CloudWatchLogger.open s correlationId env))
    = match CloudWatchLogger.createLogStream env with
      | None => None
      | Some _ =>
          match CloudWatchLogger.describe_data
                  (CloudWatchLogger.describeLogStreams env) with
          | Some (first :: _) => CloudWatchLogger.LogStream.uploadSequenceToken first
          | _ => CloudWatchLogger._lastToken s
          end
      end.
Proof.
  intros s cid env Ho.
  assert (Ht : CloudWatchLogger._timer s = None).
  { unfold CloudWatchLogger.isOpen in Ho.
    destruct (CloudWatchLogger._timer s); [discriminate | reflexivity]. }
  assert (Hstream : forall s2 tr,
            CloudWatchLogger._timer s2 = None ->
            CloudWatchLogger._lastToken s2 = CloudWatchLogger._lastToken s ->
            CloudWatchLogger.isOpen (fst (CloudWatchLogger.open_stream s2 tr env)) = true ->
            CloudWatchLogger._lastToken (fst (CloudWatchLogger.open_stream s2 tr env))
            = match CloudWatchLogger.createLogStream env with
              | None => None
              | Some _ =>
                  match CloudWatchLogger.describe_data
                          (CloudWatchLogger.describeLogStreams env) with
                  | Some (first :: _) =>
                      CloudWatchLogger.LogStream.uploadSequenceToken first
                  | _ => CloudWatchLogger._lastToken s
                  end
              end).
  { intros s2 tr Ht2 Htok. unfold CloudWatchLogger.open_stream.
    destruct (CloudWatchLogger.createLogStream env) as [err|].
    - destruct (String.eqb _ _).
      + destruct (CloudWatchLogger.describe_data _) as [[|first rest]|].
        * destruct (CloudWatchLogger.describe_err _).
          -- unfold CloudWatchLogger.isOpen. simpl. rewrite Ht2. discriminate.
          -- rewrite open_timer_spec by exact Ht2. intros _. exact Htok.
        * destruct (CloudWatchLogger.describe_err _).
          -- unfold CloudWatchLogger.isOpen. simpl. rewrite Ht2. discriminate.
          -- rewrite open_timer_spec by exact Ht2. intros _. reflexivity.
        * unfold CloudWatchLogger.isOpen. simpl. rewrite Ht2. discriminate.
      + unfold CloudWatchLogger.isOpen. simpl. rewrite Ht2. discriminate.
    - rewrite open_timer_spec by exact Ht2. intros _. reflexivity. }
  unfold CloudWatchLogger.open. rewrite Ho.
  destruct (resolve_err _).
  { unfold CloudWatchLogger.isOpen. simpl. rewrite Ht. discriminate. }
  simpl CloudWatchLogger._connection.
  destruct (resolve_connection _).
  2:{ unfold CloudWatchLogger.isOpen. simpl. rewrite Ht. discriminate. }
  destruct (CloudWatchLogger.createLogGroup env) as [err|].
  - destruct (String.eqb _ _).
    + apply Hstream; [exact Ht | reflexivity].
    + unfold CloudWatchLogger.isOpen. simpl. rewrite Ht. discriminate.
  - apply Hstream; [exact Ht | reflexivity].
Qed.

Lemma open_recovers_sequence_token_witness :
  CloudWatchLogger._lastToken Samples.opened_logger = Some "token-1".
Proof.
  exact (open_recovers_sequence_token (CloudWatchLogger.new 300000) (Some "123")
           Samples.logger_env eq_refl eq_refl).
Defined.

(** X10: when [describeLogStreams] fails (it calls back without data),
    [save] reads the stream list of the missing data and throws: the batch is
    not written, no callback is invoked, nothing is logged and the held token
    is unchanged. *)
Theorem save_throws_when_describe_fails :
  forall (s : CloudWatchLogger.State) (messages : list CloudWatchLogger.LogMessage.t)
         (callback : bool) (env : CloudWatchLogger.SaveEnv),
    CloudWatchLogger.isOpen s = true ->
    CloudWatchLogger._client s = Some tt ->
    messages <> [] ->
    CloudWatchLogger.describe_data (CloudWatchLogger.describe env) = None ->
    exists what,
      CloudWatchLogger.save s (Some messages) callback env
      = (s, [CloudWatchLogger.DescribeLogStreams (CloudWatchLogger._group s)
               (CloudWatchLogger._stream s);
             CloudWatchLogger.Thrown what], [])
      /\ CloudWatchLogger.put_requests
           (snd (fst (CloudWatchLogger.save s (Some messages) callback env))) = [].
Proof.
  intros s messages callback env Ho Hc Hm Hd.
  unfold CloudWatchLogger.save. rewrite Ho, Hc, Hd.
  destruct messages as [|m ms]; [congruence|]. simpl.
  eexists. split; reflexivity.
Qed.

Lemma save_throws_when_describe_fails_witness :
  CloudWatchLogger.put_requests
    (snd (fst (CloudWatchLogger.save Samples.opened_logger (Some [Samples.message])
                 true
                 {| CloudWatchLogger.describe :=
                      {| CloudWatchLogger.describe_err :=
                           Some (ForeignError "ThrottlingException" "slow down");
                         CloudWatchLogger.describe_data := None |};
                    CloudWatchLogger.put := CloudWatchLogger.PutDone None |})))
  = [].
Proof.
  destruct (save_throws_when_describe_fails Samples.opened_logger [Samples.message]
              true
              {| CloudWatchLogger.describe :=
                   {| CloudWatchLogger.describe_err :=
                        Some (ForeignError "ThrottlingException" "slow down");
                      CloudWatchLogger.describe_data := None |};
                 CloudWatchLogger.put := CloudWatchLogger.PutDone None |}
              eq_refl eq_refl ltac:(discriminate) eq_refl) as (what & _ & H).
  exact H.
Defined.

(** X11: two flushes in a row.  The second put carries the token the first
    flush left in the logger: the token returned by the first put when it
    succeeded, and otherwise the token the first flush re-fetched (the
    failed batch itself is not sent again). *)
Theorem consecutive_flushes_chain_tokens :
  forall (s : CloudWatchLogger.State)
         (first second : list CloudWatchLogger.LogMessage.t)
         (callback1 callback2 : bool) (env1 env2 : CloudWatchLogger.SaveEnv)
         (streams1 streams2 : list CloudWatchLogger.LogStream.t),
    CloudWatchLogger.isOpen s = true ->
    CloudWatchLogger._client s = Some tt ->
    first <> [] -> second <> [] ->
    CloudWatchLogger.describe_data (CloudWatchLogger.describe env1) = Some streams1 ->
    CloudWatchLogger.describe_data (CloudWatchLogger.describe env2) = Some streams2 ->
    let s1 := fst (fst (CloudWatchLogger.save s (Some first) callback1 env1)) in
    map CloudWatchLogger.PutLogEventsRequest.sequenceToken
      (CloudWatchLogger.put_requests
         (snd (fst (CloudWatchLogger.save s1 (Some second) callback2 env2))))
    = [ match CloudWatchLogger.put env1 with
        | CloudWatchLogger.PutDone next => next
        | CloudWatchLogger.PutFailed _ =>
            CloudWatchLogger._lastToken (CloudWatchLogger.refetch s streams1)
        end ]
    /\ map CloudWatchLogger.PutLogEventsRequest.logEvents
         (CloudWatchLogger.put_requests
            (snd (fst (CloudWatchLogger.save s1 (Some second) callback2 env2))))
       = [ map (fun m =>
                  {| CloudWatchLogger.InputLogEvent.timestamp :=
                       getTime (CloudWatchLogger.LogMessage.time m);
                     CloudWatchLogger.InputLogEvent.message :=
                       CloudWatchLogger.formatMessageText m |})
             second ].
Proof.
  intros s first second cb1 cb2 env1 env2 streams1 streams2 Ho Hc Hf Hs Hd1 Hd2.
  cbv zeta.
  assert (H1 : exists t,
             fst (fst (CloudWatchLogger.save s (Some first) cb1 env1))
             = CloudWatchLogger.set_lastToken s t
             /\ t = match CloudWatchLogger.put env1 with
                    | CloudWatchLogger.PutDone next => next
                    | CloudWatchLogger.PutFailed _ =>
                        CloudWatchLogger._lastToken
                          (CloudWatchLogger.refetch s streams1)
                    end).
  { unfold CloudWatchLogger.save. rewrite Ho, Hc, Hd1.
    destruct first as [|m ms]; [congruence|]. simpl.
    destruct (CloudWatchLogger.put env1) as [err|next]; simpl.
    - eexists. split; [|reflexivity].
      destruct streams1; simpl; [destruct s|]; reflexivity.
    - eexists. split; [|reflexivity]. destruct streams1; reflexivity. }
  destruct H1 as (t & -> & ->).
  unfold CloudWatchLogger.save at 1 2.
  assert (Ho' : CloudWatchLogger.isOpen
                  (CloudWatchLogger.set_lastToken s
                     match CloudWatchLogger.put env1 with
                     | CloudWatchLogger.PutFailed _ =>
                         CloudWatchLogger._lastToken
                           (CloudWatchLogger.refetch s streams1)
                     | CloudWatchLogger.PutDone next => next
                     end) = true) by exact Ho.
  rewrite Ho'. simpl CloudWatchLogger._client. rewrite Hc, Hd2.
  destruct second as [|m ms]; [congruence|]. simpl.
  destruct (CloudWatchLogger.put env2); split; reflexivity.
Qed.

Lemma consecutive_flushes_chain_tokens_witness :
  map CloudWatchLogger.PutLogEventsRequest.sequenceToken
    (CloudWatchLogger.put_requests
       (snd (fst (CloudWatchLogger.save
                    (fst (fst (CloudWatchLogger.save Samples.opened_logger
                                 (Some [Samples.message]) true Samples.save_env)))
                    (Some [Samples.message]) true Samples.save_env))))
  = [Some "token-3"].
Proof.
  exact (proj1 (consecutive_flushes_chain_tokens Samples.opened_logger
                  [Samples.message] [Samples.message] true true
                  Samples.save_env Samples.save_env
                  [ {| CloudWatchLogger.LogStream.uploadSequenceToken :=
                         Some "token-2" |} ]
                  [ {| CloudWatchLogger.LogStream.uploadSequenceToken :=
                         Some "token-2" |} ]
                  eq_refl eq_refl ltac:(discriminate) ltac:(discriminate)
                  eq_refl eq_refl)).
Defined.

(** X12: [close] on a logger that is not open, or whose cache is empty,
    completes at once: no remote call is made, the buffered messages (if
    any) are discarded unsent, the timer of an open logger is cleared, the
    client is released and the callback, when there is one, fires once. *)
Theorem close_completes_without_flush :
  forall (s : CloudWatchLogger.State) (callback : bool)
         (env : CloudWatchLogger.SaveEnv),
    CloudWatchLogger.isOpen s = false \/ CloudWatchLogger._cache s = [] ->
    let '(after, tr) := CloudWatchLogger.close s callback env in
    tr = (if CloudWatchLogger.isOpen s then [CloudWatchLogger.ClearInterval] else [])
         ++ (if callback then [CloudWatchLogger.Callback None] else [])
    /\ CloudWatchLogger.isOpen after = false
    /\ CloudWatchLogger._client after = None
    /\ CloudWatchLogger._cache after = []
    /\ CloudWatchLogger._lastToken after = CloudWatchLogger._lastToken s
    /\ forall messages callback' env',
         CloudWatchLogger.save after messages callback' env'
         = (after, [], if callback' then [None] else []).
Proof.
  intros s callback env H.
  assert (Hsave : CloudWatchLogger.save s (Some (CloudWatchLogger._cache s)) true env
                  = (s, [], [None])).
  { unfold CloudWatchLogger.save.
    destruct H as [-> | ->]; [reflexivity|].
    simpl. rewrite orb_true_r. reflexivity. }
  unfold CloudWatchLogger.close. rewrite Hsave. simpl.
  repeat split.
  - destruct (CloudWatchLogger.isOpen s), callback; reflexivity.
  - intros [messages|] cb env'; reflexivity.
Qed.

Lemma close_completes_without_flush_witness :
  CloudWatchLogger.close Samples.opened_logger true Samples.save_env
  = (CloudWatchLogger.set_client
       (CloudWatchLogger.set_timer Samples.opened_logger None) None,
     [CloudWatchLogger.ClearInterval; CloudWatchLogger.Callback None]).
Proof.
  pose proof (close_completes_without_flush Samples.opened_logger true
                Samples.save_env (or_intror eq_refl)) as H.
  destruct (CloudWatchLogger.close Samples.opened_logger true Samples.save_env)
    as [after tr] eqn:E.
  destruct H as (Htr & _).
  rewrite Htr. f_equal.
  apply (f_equal fst) in E. simpl in E. rewrite <- E. reflexivity.
Defined.

(** X13: a logger fresh from the constructor keeps the group name
    "undefined" through [setReferences], whatever the context offers, because
    only a missing name is replaced; the stream name, which starts out
    missing, is taken from the context name.  A configured value is never
    replaced. *)
Theorem setReferences_defaults :
  forall (interval : Z) (info : ContextInfo.t),
    let s := CloudWatchLogger.setReferences (CloudWatchLogger.new interval)
               (Some info) in
    CloudWatchLogger._group s = Some "undefined"
    /\ CloudWatchLogger._stream s = ContextInfo.name info
    /\ forall (s0 : CloudWatchLogger.State) (g st : string),
         CloudWatchLogger._group s0 = Some g ->
         CloudWatchLogger._stream s0 = Some st ->
         CloudWatchLogger.setReferences s0 (Some info) = s0.
Proof.
  intros interval info. cbv zeta. repeat split.
  intros s0 g st Hg Hst. unfold CloudWatchLogger.setReferences.
  rewrite Hg, Hst. destruct s0; simpl in *. subst. reflexivity.
Qed.

(** ** LambdaClient: lifecycle and replies *)

(** X14: unlike the sinks, the Lambda client raises its opened flag only
    when [open] went through.  On a closed client a resolver error is handed
    to the callback (with the results of the series, one undefined entry),
    the client stays closed, and the next [open] asks the resolver again; a
    resolution with a connection opens the client and stores the connection
    and the SDK handle, after which [open] is a no-op; a resolution with
    neither error nor connection makes [open] throw, with no callback and
    the client still closed. *)
Theorem client_open_retries_after_failure :
  forall (s : LambdaClient.State) (correlationId : option string)
         (reply : ResolveReply),
    LambdaClient.isOpen s = false ->
    let '(after, tr) := LambdaClient.open s correlationId reply in
    match resolve_err reply, resolve_connection reply with
    | Some err, _ =>
        tr = [LambdaClient.Resolve correlationId;
              LambdaClient.Callback (Some err) (VArr [VUndefined])]
        /\ LambdaClient.isOpen after = false
        /\ forall correlationId' reply',
             hd_error (snd (LambdaClient.open after correlationId' reply'))
             = Some (LambdaClient.Resolve correlationId')
    | None, Some c =>
        LambdaClient.callbacks tr = [(None, VArr [VUndefined; VUndefined])]
        /\ LambdaClient.isOpen after = true
        /\ LambdaClient._connection after = Some c
        /\ LambdaClient._lambda after = Some tt
        /\ forall correlationId' reply',
             LambdaClient.open after correlationId' reply'
             = (after, [LambdaClient.Callback None VUndefined])
    | None, None =>
        (exists what,
            tr = [LambdaClient.Resolve correlationId; LambdaClient.Thrown what])
        /\ LambdaClient.isOpen after = false
        /\ LambdaClient.callbacks tr = []
    end.
Proof.
  intros s cid reply Ho. unfold LambdaClient.open. rewrite Ho.
  destruct (resolve_err reply) as [err|].
  - repeat split; [exact Ho|].
    intros cid' reply'. unfold LambdaClient.isOpen in *. simpl. rewrite Ho.
    destruct (resolve_err reply'); [reflexivity|].
    destruct (resolve_connection reply'); reflexivity.
  - simpl. destruct (resolve_connection reply) as [c|].
    + repeat split.
    + split; [eexists; reflexivity|]. split; [exact Ho | reflexivity].
Qed.

Lemma client_open_retries_after_failure_witness :
  LambdaClient.isOpen
    (fst (LambdaClient.open LambdaClient.new (Some "123") Samples.unresolved))
  = false
  /\ hd_error
       (snd (LambdaClient.open
               (fst (LambdaClient.open LambdaClient.new (Some "123")
                       Samples.unresolved))
               (Some "124") Samples.resolved))
     = Some (LambdaClient.Resolve (Some "124")).
Proof.
  pose proof (client_open_retries_after_failure LambdaClient.new (Some "123")
                Samples.unresolved eq_refl) as H.
  simpl in H. destruct H as (_ & Hclosed & Hretry).
  split; [exact Hclosed | exact (Hretry (Some "124") Samples.resolved)].
Defined.

(** The callbacks of [open], evaluated: after a failure and after the
    retry. *)
Example client_open_callbacks :
  LambdaClient.callbacks
    (snd (LambdaClient.open LambdaClient.new (Some "123") Samples.unresolved))
  = [(Some (ForeignError "NO_CONNECTION" "no connection configured"),
      VArr [VUndefined])]
  /\ LambdaClient.callbacks
       (snd (LambdaClient.open
               (fst (LambdaClient.open LambdaClient.new (Some "123")
                       Samples.unresolved))
               (Some "124") Samples.resolved))
     = [(None, VArr [VUndefined; VUndefined])].
Proof. vm_compute. split; reflexivity. Qed.

(** X15: [close] only lowers the flag.  The connection and the SDK handle
    stay in place and [invoke] does not look at the flag, so a call on a
    closed client behaves exactly as on the open one. *)
Theorem invoke_ignores_close :
  forall (P : Platform) (s : LambdaClient.State)
         (h : gmap nat (list (string * JsValue))) (invocationType : string)
         (cmd correlationId : option string) (args : LambdaClient.Arg)
         (callback callback' : bool) (reply : LambdaClient.InvokeReply),
    let closed := fst (LambdaClient.close s callback') in
    LambdaClient.isOpen closed = false
    /\ LambdaClient.invoke P closed h invocationType cmd correlationId args
         callback reply
       = LambdaClient.invoke P s h invocationType cmd correlationId args
           callback reply.
Proof. intros. cbv zeta. split; reflexivity. Qed.

(** X16: with a callback, every reply except an undecodable string payload
    leads to exactly one callback: a transport error is wrapped as
    CALL_FAILED with the SDK error as cause and a null result; a string
    payload is handed over decoded; any other payload is handed over as it
    is. *)
Theorem invoke_calls_back_once :
  forall (P : Platform) (s : LambdaClient.State)
         (h : gmap nat (list (string * JsValue))) (invocationType cmd : string)
         (correlationId : option string) (address : nat)
         (fields : list (string * JsValue)) (c : AwsConnectionParams)
         (reply : LambdaClient.InvokeReply),
    LambdaClient._connection s = Some c ->
    LambdaClient._lambda s = Some tt ->
    h !! address = Some fields ->
    let tr :=
      snd (LambdaClient.invoke P s h invocationType (Some cmd) correlationId
             (LambdaClient.ArgObject address) true reply) in
    match reply with
    | LambdaClient.InvokeFailed err =>
        LambdaClient.callbacks tr
        = [(Some (ApplicationException InvocationException
                    (of_nullable correlationId) "CALL_FAILED"
                    "Failed to invoke lambda function" (Some err) []), VNull)]
    | LambdaClient.InvokeDone (VStr text) =>
        match JSON_parse P text with
        | inr value => LambdaClient.callbacks tr = [(None, value)]
        | inl _ => length (LambdaClient.callbacks tr) = 2
        end
    | LambdaClient.InvokeDone payload =>
        LambdaClient.callbacks tr = [(None, payload)]
    end.
Proof.
  intros P s h ty cmd cid address fields c reply Hc Hl Ha. cbv zeta.
  rewrite (invoke_on_object P s h ty cmd cid address fields c true reply Hc Hl Ha).
  destruct reply as [err|[]]; try reflexivity.
  unfold LambdaClient.on_reply. simpl.
  destruct (JSON_parse P s0); reflexivity.
Qed.

Lemma invoke_calls_back_once_witness :
  LambdaClient.callbacks
    (snd (LambdaClient.invoke Samples.platform Samples.opened_client Samples.heap
            "RequestResponse" (Some "get_mydata") (Some "123")
            (LambdaClient.ArgObject 0) true
            (LambdaClient.InvokeDone (VStr "{}"))))
  = [(None, VObj [])].
Proof.
  exact (invoke_calls_back_once Samples.platform Samples.opened_client Samples.heap
           "RequestResponse" "get_mydata" (Some "123") 0 [("id", VStr "42")]
           Samples.connection (LambdaClient.InvokeDone (VStr "{}"))
           eq_refl eq_refl eq_refl).
Defined.

(** X17: without a callback [invoke] is fire-and-forget: the request is
    sent, no callback is ever invoked, the payload of a successful reply is
    not even decoded, and the only trace of a transport error is one line in
    the logger. *)
Theorem invoke_without_callback :
  forall (P : Platform) (s : LambdaClient.State)
         (h : gmap nat (list (string * JsValue))) (invocationType cmd : string)
         (correlationId : option string) (address : nat)
         (fields : list (string * JsValue)) (c : AwsConnectionParams)
         (reply : LambdaClient.InvokeReply),
    LambdaClient._connection s = Some c ->
    LambdaClient._lambda s = Some tt ->
    h !! address = Some fields ->
    exists request,
      snd (LambdaClient.invoke P s h invocationType (Some cmd) correlationId
             (LambdaClient.ArgObject address) false reply)
      = LambdaClient.Invoke request
        :: match reply with
           | LambdaClient.InvokeFailed err =>
               [LambdaClient.LoggerError correlationId err
                  "Failed to invoke lambda function"]
           | LambdaClient.InvokeDone _ => []
           end
      /\ LambdaClient.InvocationRequest.InvocationType request = invocationType
      /\ LambdaClient.InvocationRequest.FunctionName request = getArn c.
Proof.
  intros P s h ty cmd cid address fields c reply Hc Hl Ha.
  rewrite (invoke_on_object P s h ty cmd cid address fields c false reply Hc Hl Ha).
  eexists. split.
  - unfold LambdaClient.on_reply. simpl. destruct reply; reflexivity.
  - split; reflexivity.
Qed.

Lemma invoke_without_callback_witness :
  LambdaClient.callbacks
    (snd (LambdaClient.invoke Samples.platform Samples.opened_client Samples.heap
            "Event" (Some "get_mydata") (Some "123") (LambdaClient.ArgObject 0)
            false (LambdaClient.InvokeDone (VStr "{"))))
  = [].
Proof.
  destruct (invoke_without_callback Samples.platform Samples.opened_client
              Samples.heap "Event" "get_mydata" (Some "123") 0
              [("id", VStr "42")] Samples.connection
              (LambdaClient.InvokeDone (VStr "{")) eq_refl eq_refl eq_refl)
    as (request & -> & _).
  reflexivity.
Defined.

(** X18: [invoke] throws, instead of reporting through the callback, when
    the arguments are null or undefined or when the client holds no
    connection (it was never opened successfully): no request is sent and the
    callback is not invoked. *)
Theorem invoke_throws_without_reporting :
  forall (P : Platform) (s : LambdaClient.State)
         (h : gmap nat (list (string * JsValue))) (invocationType cmd : string)
         (correlationId : option string) (args : LambdaClient.Arg)
         (callback : bool) (reply : LambdaClient.InvokeReply),
    args = LambdaClient.ArgNull \/ args = LambdaClient.ArgUndefined
    \/ LambdaClient._connection s = None ->
    let tr :=
      snd (LambdaClient.invoke P s h invocationType (Some cmd) correlationId
             args callback reply) in
    (exists what, tr = [LambdaClient.Thrown what])
    /\ LambdaClient.remote_calls tr = []
    /\ LambdaClient.callbacks tr = [].
Proof.
  intros P s h ty cmd cid args callback reply H. cbv zeta.
  unfold LambdaClient.invoke.
  destruct H as [-> | [-> | Hc]]; try (repeat split; eexists; reflexivity).
  destruct args as [| |address]; try (repeat split; eexists; reflexivity).
  destruct (LambdaClient.clone h address) as [[a h1]|];
    [rewrite Hc|]; repeat split; eexists; reflexivity.
Qed.

Lemma invoke_throws_without_reporting_witness :
  LambdaClient.callbacks
    (snd (LambdaClient.invoke Samples.platform LambdaClient.new Samples.heap
            "RequestResponse" (Some "ping") None (LambdaClient.ArgObject 0) true
            (LambdaClient.InvokeDone VNull)))
  = [].
Proof.
  exact (proj2 (proj2 (invoke_throws_without_reporting Samples.platform
                         LambdaClient.new Samples.heap "RequestResponse" "ping"
                         None (LambdaClient.ArgObject 0) true
                         (LambdaClient.InvokeDone VNull)
                         (or_intror (or_intror eq_refl))))).
Defined.

(** X19: [call] and [callOneWay] differ in the invocation type only
    ("RequestResponse" against "Event"): the store they leave, the payload
    and target they send, the callbacks and the log lines are the same.
    Called without arguments, both send an object that holds nothing but
    [cmd] and [correlation_id]. *)
Theorem call_and_callOneWay_differ_in_type_only :
  forall (P : Platform) (s : LambdaClient.State)
         (h : gmap nat (list (string * JsValue))) (cmd correlationId : option string)
         (params : LambdaClient.Arg) (callback : bool)
         (reply : LambdaClient.InvokeReply),
    let '(h1, tr1) := LambdaClient.call P s h cmd correlationId params callback reply in
    let '(h2, tr2) :=
      LambdaClient.callOneWay P s h cmd correlationId params callback reply in
    h1 = h2
    /\ LambdaClient.callbacks tr1 = LambdaClient.callbacks tr2
    /\ map LambdaClient.InvocationRequest.Payload (LambdaClient.remote_calls tr1)
       = map LambdaClient.InvocationRequest.Payload (LambdaClient.remote_calls tr2)
    /\ map LambdaClient.InvocationRequest.FunctionName (LambdaClient.remote_calls tr1)
       = map LambdaClient.InvocationRequest.FunctionName
           (LambdaClient.remote_calls tr2)
    /\ Forall (fun r => LambdaClient.InvocationRequest.InvocationType r
                        = "RequestResponse") (LambdaClient.remote_calls tr1)
    /\ Forall (fun r => LambdaClient.InvocationRequest.InvocationType r = "Event")
         (LambdaClient.remote_calls tr2)
    /\ (params = LambdaClient.ArgUndefined ->
        forall c command,
          cmd = Some command ->
          LambdaClient._connection s = Some c ->
          LambdaClient._lambda s = Some tt ->
          map LambdaClient.InvocationRequest.Payload (LambdaClient.remote_calls tr1)
          = [ JSON_stringify P
                (VObj [("cmd", VStr command);
                       ("correlation_id",
                        VStr (LambdaClient.correlation_of P correlationId))]) ]).
Proof.
  intros P s h cmd cid params callback reply.
  unfold LambdaClient.call, LambdaClient.callOneWay.
  destruct (LambdaClient.default_params h params) as [h0 params0] eqn:Hdef.
  assert (Hundef : params = LambdaClient.ArgUndefined ->
                   params0 = LambdaClient.ArgObject (fresh (dom h))
                   /\ h0 !! fresh (dom h) = Some []).
  { intros ->. simpl in Hdef. injection Hdef as <- <-.
    split; [reflexivity | apply lookup_insert_eq]. }
  unfold LambdaClient.invoke.
  destruct cmd as [command|].
  2:{ destruct callback; repeat split; try constructor; intros; discriminate. }
  destruct params0 as [| |address].
  1,2: repeat split; try constructor; intros Hp; destruct (Hundef Hp); discriminate.
  destruct (LambdaClient.clone h0 address) as [[a h1]|] eqn:Hclone.
  2:{ repeat split; try constructor. intros Hp c command' _ _ _.
      destruct (Hundef Hp) as [[= ->] Hl].
      unfold LambdaClient.clone in Hclone. rewrite Hl in Hclone. discriminate. }
  destruct (LambdaClient._connection s) as [c|].
  2:{ repeat split; try constructor; intros; discriminate. }
  destruct (LambdaClient._lambda s).
  2:{ repeat split; try constructor; intros; discriminate. }
  simpl. rewrite !on_reply_no_remote_call. simpl.
  repeat split; try (constructor; [reflexivity | constructor]).
  intros Hp c' command' [= <-] _ _.
  destruct (Hundef Hp) as [[= ->] Hl].
  unfold LambdaClient.clone in Hclone. rewrite Hl in Hclone.
  injection Hclone as <- <-. rewrite lookup_insert_eq. reflexivity.
Qed.

(** The two callbacks of an undecodable payload, for any invocation type. *)
Lemma invoke_undecodable_payload_is_reported_twice_aux
    (P : Platform) (s : LambdaClient.State)
    (h : gmap nat (list (string * JsValue))) (cmd : string)
    (correlationId : option string) (address : nat)
    (fields : list (string * JsValue)) (c : AwsConnectionParams)
    (text : string) (err : JsError) :
  LambdaClient._connection s = Some c ->
  LambdaClient._lambda s = Some tt ->
  h !! address = Some fields ->
  JSON_parse P text = inl err ->
  LambdaClient.callbacks
    (snd (LambdaClient.invoke P s h "RequestResponse" (Some cmd) correlationId
            (LambdaClient.ArgObject address) true
            (LambdaClient.InvokeDone (VStr text))))
  = [ (Some (LambdaClient.DESERIALIZATION_FAILED correlationId err), VNull);
      (None, VStr text) ].
Proof.
  intros Hc Hl Ha Hp.
  rewrite (invoke_on_object P s h "RequestResponse" cmd correlationId address
             fields c true _ Hc Hl Ha).
  unfold LambdaClient.on_reply. simpl. rewrite Hp. reflexivity.
Qed.

(** ** CommandableLambdaClient *)
Section CommandableProperties.
Import CommandableLambdaClient.

Lemma timings_ended_app tr1 tr2 :
  timings_ended (tr1 ++ tr2) = timings_ended tr1 + timings_ended tr2.
Proof. unfold timings_ended. rewrite List.filter_app, length_app. reflexivity. Qed.

Lemma on_callback_timings callback inner :
  timings_ended (flat_map (on_callback callback) inner)
  = length (LambdaClient.callbacks inner).
Proof.
  induction inner as [|e inner IH]; [reflexivity|].
  cbn [flat_map]. rewrite timings_ended_app, IH.
  destruct e; try reflexivity. destruct callback; reflexivity.
Qed.

Lemma on_callback_forwards callback inner :
  callbacks (flat_map (on_callback callback) inner)
  = if callback then LambdaClient.callbacks inner else [].
Proof.
  induction inner as [|e inner IH]; [destruct callback; reflexivity|].
  cbn [flat_map]. unfold callbacks in *. rewrite omap_app, IH.
  destruct e; try reflexivity. destruct callback; reflexivity.
Qed.

(** With a callback and a command, [invoke] never writes to the logger. *)
Lemma invoke_with_callback_never_logs P s h ty cmd cid args reply :
  Forall (fun e => match e with
                   | LambdaClient.LoggerError _ _ _ => False
                   | _ => True
                   end)
    (snd (LambdaClient.invoke P s h ty (Some cmd) cid args true reply)).
Proof.
  unfold LambdaClient.invoke.
  destruct args as [| |address]; try (repeat constructor).
  destruct (LambdaClient.clone h address) as [[a h1]|]; [|repeat constructor].
  destruct (LambdaClient._connection s); [|repeat constructor].
  destruct (LambdaClient._lambda s); [|repeat constructor].
  simpl. constructor; [exact I|].
  unfold LambdaClient.on_reply. simpl.
  destruct reply as [err|[]]; try (repeat constructor).
  destruct (JSON_parse P s0); repeat constructor.
Qed.

End CommandableProperties.

(** X20: [callCommand] starts one timing per call and ends it once per
    invocation of the callback it hands to [call], forwarding each
    invocation unchanged to the caller's callback.  So the timing is never
    ended when [call] throws (null arguments), and it is ended twice, with two
    callbacks, when the payload does not decode. *)
Theorem callCommand_ends_timing_per_callback :
  forall (P : Platform) (name : string) (s : LambdaClient.State)
         (h : gmap nat (list (string * JsValue))) (cmd : string)
         (correlationId : option string) (params : LambdaClient.Arg)
         (callback : bool) (reply : LambdaClient.InvokeReply),
    let inner :=
      snd (LambdaClient.call P s h (Some cmd) correlationId params true reply) in
    let tr :=
      snd (CommandableLambdaClient.callCommand P name s h cmd correlationId params
             callback reply) in
    (exists rest,
        tr = CommandableLambdaClient.LoggerTrace correlationId "Executing %s method"
               (name +:+ "." +:+ cmd)
             :: CommandableLambdaClient.BeginTiming
                  ((name +:+ "." +:+ cmd) +:+ ".exec_time")
             :: rest)
    /\ CommandableLambdaClient.timings_ended tr
       = length (LambdaClient.callbacks inner)
    /\ CommandableLambdaClient.callbacks tr
       = (if callback then LambdaClient.callbacks inner else [])
    /\ (params = LambdaClient.ArgNull ->
        CommandableLambdaClient.timings_ended tr = 0)
    /\ (forall text err address fields c,
          params = LambdaClient.ArgObject address ->
          h !! address = Some fields ->
          LambdaClient._connection s = Some c ->
          LambdaClient._lambda s = Some tt ->
          reply = LambdaClient.InvokeDone (VStr text) ->
          JSON_parse P text = inl err ->
          CommandableLambdaClient.timings_ended tr = 2).
Proof.
  intros P name s h cmd cid params callback reply. cbv zeta.
  unfold CommandableLambdaClient.callCommand.
  destruct (LambdaClient.call P s h (Some cmd) cid params true reply)
    as [h' inner] eqn:Hcall.
  cbn [snd].
  assert (Hended :
    CommandableLambdaClient.timings_ended
      (CommandableLambdaClient.LoggerTrace cid "Executing %s method"
         (name +:+ "." +:+ cmd)
       :: CommandableLambdaClient.BeginTiming
            ((name +:+ "." +:+ cmd) +:+ ".exec_time")
       :: flat_map (CommandableLambdaClient.on_callback callback) inner)
    = length (LambdaClient.callbacks inner)).
  { rewrite <- (on_callback_timings callback inner). reflexivity. }
  split; [|split; [|split; [|split]]].
  - eexists. reflexivity.
  - exact Hended.
  - apply (on_callback_forwards callback inner).
  - intros ->. rewrite Hended.
    unfold LambdaClient.call in Hcall. simpl in Hcall.
    injection Hcall as <- <-. reflexivity.
  - intros text err address fields c -> Ha Hc Hl -> Hp. rewrite Hended.
    unfold LambdaClient.call, LambdaClient.default_params in Hcall.
    cbv beta iota in Hcall.
    pose proof (invoke_undecodable_payload_is_reported_twice_aux P s h cmd cid
                  address fields c text err Hc Hl Ha Hp) as H2.
    rewrite Hcall in H2. simpl in H2. rewrite H2. reflexivity.
Qed.

(** X21: [callCommand] without a callback loses every error.  [call] is
    always given a callback (the timing closure), so it never writes to the
    logger, and the closure has nobody to forward to: neither a transport
    failure nor an undecodable payload is reported anywhere. *)
Theorem callCommand_without_callback_is_silent :
  forall (P : Platform) (name : string) (s : LambdaClient.State)
         (h : gmap nat (list (string * JsValue))) (cmd : string)
         (correlationId : option string) (params : LambdaClient.Arg)
         (reply : LambdaClient.InvokeReply),
    Forall (fun e => CommandableLambdaClient.reports_error e = false)
      (snd (CommandableLambdaClient.callCommand P name s h cmd correlationId
              params false reply)).
Proof.
  intros P name s h cmd cid params reply.
  unfold CommandableLambdaClient.callCommand, LambdaClient.call.
  destruct (LambdaClient.default_params h params) as [h0 params0].
  pose proof (invoke_with_callback_never_logs P s h0 "RequestResponse" cmd cid
                params0 reply) as Hlog.
  destruct (LambdaClient.invoke P s h0 "RequestResponse" (Some cmd) cid params0
              true reply) as [h' inner].
  cbn [snd] in *.
  constructor; [reflexivity|]. constructor; [reflexivity|].
  induction Hlog as [|e inner He _ IH]; [constructor|].
  cbn [flat_map]. apply Forall_app. split; [|exact IH].
  destruct e; try contradiction; repeat constructor.
Qed.

(** The same failure, with and without a callback handed to [callCommand]. *)
Example callCommand_transport_failure :
  CommandableLambdaClient.callbacks
    (snd (CommandableLambdaClient.callCommand Samples.platform "mydata"
            Samples.opened_client Samples.heap "get_mydata" (Some "123")
            (LambdaClient.ArgObject 0) true
            (LambdaClient.InvokeFailed (ForeignError "TimeoutError" "timed out"))))
  = [ (Some (LambdaClient.CALL_FAILED (Some "123")
               (ForeignError "TimeoutError" "timed out")), VNull) ]
  /\ List.filter CommandableLambdaClient.reports_error
       (snd (CommandableLambdaClient.callCommand Samples.platform "mydata"
               Samples.opened_client Samples.heap "get_mydata" (Some "123")
               (LambdaClient.ArgObject 0) false
               (LambdaClient.InvokeFailed (ForeignError "TimeoutError" "timed out"))))
     = [].
Proof. vm_compute. split; reflexivity. Qed.

(** ** LambdaFunction: registration and dispatch *)
Section DispatchProperties.

Lemma get_set_property key v fields :
  get_property key (set_property key v fields) = v.
Proof.
  induction fields as [|[k x] rest IH]; simpl.
  - rewrite String.eqb_refl. reflexivity.
  - destruct (String.eqb k key) eqn:E; simpl; rewrite E; [reflexivity | exact IH].
Qed.

Lemma get_set_property_other key key' v fields :
  key' <> key ->
  get_property key (set_property key' v fields) = get_property key fields.
Proof.
  intros Hne. induction fields as [|[k x] rest IH]; simpl.
  - destruct (String.eqb_spec key' key); [contradiction | reflexivity].
  - destruct (String.eqb_spec k key') as [->|Hk]; simpl.
    + destruct (String.eqb_spec key' key); [contradiction | reflexivity].
    + destruct (String.eqb k key); [reflexivity | exact IH].
Qed.

Lemma payload_fields_cmd P cmd cid fields :
  get_property "cmd" (LambdaClient.payload_fields P cmd cid fields) = VStr cmd.
Proof.
  unfold LambdaClient.payload_fields.
  rewrite get_set_property_other by discriminate. apply get_set_property.
Qed.

End DispatchProperties.

(** X22: a registration that succeeds makes the command dispatchable:
    [execute] on an event with that command runs the registered action
    behind its schema check, replacing whatever was registered or inherited
    under the name before; events with any other command are dispatched as
    before. *)
Theorem registerAction_then_execute :
  forall (P : Platform) (s s' : LambdaFunction.State) (cmd : string)
         (schema : option LambdaFunction.Schema) (action : LambdaFunction.Action),
    LambdaFunction.registerAction s cmd schema (Some action)
      = LambdaFunction.Registered_ s' ->
    (forall event,
        get_property "cmd" event = VStr cmd ->
        LambdaFunction.execute P s' event
        = map (fun '(err, result) => LambdaFunction.Done err result)
            (LambdaFunction.actionCurl
               {| LambdaFunction.schema := schema;
                  LambdaFunction.action := action |} event))
    /\ (forall event other,
          get_property "cmd" event = VStr other ->
          other <> cmd ->
          LambdaFunction.execute P s' event = LambdaFunction.execute P s event).
Proof.
  intros P s s' cmd schema action Hreg.
  unfold LambdaFunction.registerAction in Hreg.
  destruct (String.eqb cmd ""); [discriminate|].
  destruct (String.eqb cmd "__proto__"); [discriminate|].
  injection Hreg as <-. split.
  - intros event Hcmd. unfold LambdaFunction.execute, LambdaFunction.actions_get.
    rewrite Hcmd. simpl. rewrite lookup_insert_eq. reflexivity.
  - intros event other Hcmd Hne.
    unfold LambdaFunction.execute, LambdaFunction.actions_get.
    rewrite Hcmd. simpl. rewrite lookup_insert_ne by congruence. reflexivity.
Qed.

Lemma registerAction_then_execute_witness :
  LambdaFunction.execute Samples.platform
    {| LambdaFunction._actions :=
         <["toString" := {| LambdaFunction.schema := None;
                            LambdaFunction.action := Samples.pong |}]>
           (LambdaFunction._actions LambdaFunction.new) |}
    [("cmd", VStr "toString"); ("correlation_id", VStr "123")]
  = [LambdaFunction.Done None (VStr "pong")].
Proof.
  exact (proj1 (registerAction_then_execute Samples.platform LambdaFunction.new
                  _ "toString" None Samples.pong eq_refl)
           [("cmd", VStr "toString"); ("correlation_id", VStr "123")] eq_refl).
Defined.

(** X23: the schema of a registered action guards it.  When validation
    reports an error, [context.done] receives that error with a null result
    and the action has no part in the outcome; when it passes, or when no
    schema was registered, the outcome is the action's.  The validator is
    handed the event's [correlaton_id] property as correlation id. *)
Theorem execute_validates_before_the_action :
  forall (P : Platform) (s : LambdaFunction.State)
         (event : list (string * JsValue)) (cmd : string)
         (r : LambdaFunction.Registered),
    get_property "cmd" event = VStr cmd ->
    LambdaFunction._actions s !! cmd = Some r ->
    LambdaFunction.execute P s event
    = match LambdaFunction.schema r with
      | Some validate =>
          match validate (get_property "correlaton_id" event) event false with
          | Some err => [LambdaFunction.Done (Some err) VNull]
          | None =>
              map (fun '(err, result) => LambdaFunction.Done err result)
                (LambdaFunction.action r event)
          end
      | None =>
          map (fun '(err, result) => LambdaFunction.Done err result)
            (LambdaFunction.action r event)
      end.
Proof.
  intros P s event cmd r Hcmd Hr.
  unfold LambdaFunction.execute, LambdaFunction.actions_get,
    LambdaFunction.actionCurl.
  rewrite Hcmd. simpl. rewrite Hr.
  destruct (LambdaFunction.schema r) as [validate|]; [|reflexivity].
  destruct (validate _ event false); reflexivity.
Qed.

Lemma execute_validates_before_the_action_witness :
  LambdaFunction.execute Samples.platform Samples.guarded_function Samples.ping
  = [LambdaFunction.Done
       (Some (ApplicationException BadRequestException VUndefined "INVALID_DATA"
                "Validation failed" None []))
       VNull].
Proof.
  exact (execute_validates_before_the_action Samples.platform
           Samples.guarded_function Samples.ping "ping" Samples.guarded_ping
           eq_refl eq_refl).
Defined.

(** X24: client and function agree on the wire format.  The object
    [LambdaClient.invoke] serializes for a command, taken as the event,
    never lacks [cmd]: [execute] dispatches it to the action registered under
    that command, and if the action table yields nothing for the name, the
    NO_ACTION error carries the client's correlation id and the command. *)
Theorem client_payload_dispatches :
  forall (P P' : Platform) (s : LambdaFunction.State) (cmd : string)
         (correlationId : option string) (fields : list (string * JsValue)),
    let event := LambdaClient.payload_fields P' cmd correlationId fields in
    match LambdaFunction._actions s !! cmd with
    | Some r =>
        LambdaFunction.execute P s event
        = map (fun '(err, result) => LambdaFunction.Done err result)
            (LambdaFunction.actionCurl r event)
    | None =>
        LambdaFunction.actions_get s cmd = None ->
        LambdaFunction.execute P s event
        = [LambdaFunction.Done
             (Some (ApplicationException BadRequestException
                      (VStr (LambdaClient.correlation_of P' correlationId))
                      "NO_ACTION" ("Action " +:+ cmd +:+ " was not found") None
                      [("command", VStr cmd)]))
             VNull]
    end.
Proof.
  intros P P' s cmd cid fields. cbv zeta.
  unfold LambdaFunction.execute. rewrite payload_fields_cmd. simpl.
  destruct (LambdaFunction._actions s !! cmd) as [r|] eqn:Hr.
  - unfold LambdaFunction.actions_get. rewrite Hr. reflexivity.
  - intros ->. unfold LambdaClient.payload_fields.
    rewrite get_set_property. reflexivity.
Qed.

(** End to end on the example: the payload of [call("ping")] reaches the
    ping action. *)
Example ping_round_trip :
  LambdaFunction.execute Samples.platform
    {| LambdaFunction._actions :=
         {[ "ping" := {| LambdaFunction.schema := None;
                         LambdaFunction.action := Samples.pong |} ]} |}
    (LambdaClient.payload_fields Samples.platform "ping" None [])
  = [LambdaFunction.Done None (VStr "pong")].
Proof. vm_compute. reflexivity. Qed.

(** ** CloudWatchCounters: from the references to the request *)

(** X25: where the metrics of an unconfigured component go.  After the
    constructor, [setReferences] with a context and a successful [open], a
    flush of fewer than twenty counters puts them under the namespace of the
    context name, each data point with the dimension InstanceID set to the
    context id. *)
Theorem context_names_the_metrics :
  forall (info : ContextInfo.t) (correlationId : option string)
         (env : CloudWatchCounters.OpenEnv) (c : AwsConnectionParams)
         (remote : nat -> Reply) (now : JsDate)
         (first : CloudWatchCounters.Counter.t)
         (others : list CloudWatchCounters.Counter.t),
    resolve_err (CloudWatchCounters.resolver env) = None ->
    resolve_connection (CloudWatchCounters.resolver env) = Some c ->
    CloudWatchCounters.constructor_error env = None ->
    length others < 19 ->
    let opened :=
      fst (CloudWatchCounters.open
             (CloudWatchCounters.setReferences CloudWatchCounters.new (Some info))
             correlationId env) in
    CloudWatchCounters.save opened remote now (first :: others)
    = [ Some {| CloudWatchCounters.PutMetricDataInput.MetricData :=
                  map (fun counter =>
                         CloudWatchCounters.getCounterData counter now
                           [ {| CloudWatchCounters.Dimension.Name := "InstanceID";
                                CloudWatchCounters.Dimension.Value :=
                                  ContextInfo.contextId info |} ])
                    (first :: others);
                CloudWatchCounters.PutMetricDataInput.Namespace :=
                  ContextInfo.name info |} ].
Proof.
  intros info cid env c remote now first others He Hc Hk Hlen. cbv zeta.
  unfold CloudWatchCounters.open, CloudWatchCounters.open_begin,
    CloudWatchCounters.open_resolved. simpl. rewrite He, Hc, Hk.
  unfold CloudWatchCounters.save, CloudWatchCounters.save_loop. simpl CloudWatchCounters._client.
  cbv iota zeta.
  rewrite loop_below_threshold by (simpl; lia). reflexivity.
Qed.

Lemma context_names_the_metrics_witness :
  map (option_map CloudWatchCounters.PutMetricDataInput.Namespace)
    (CloudWatchCounters.save
       (fst (CloudWatchCounters.open
               (CloudWatchCounters.setReferences CloudWatchCounters.new
                  (Some {| ContextInfo.name := Some "mycontainer";
                           ContextInfo.contextId := Some "host-1" |}))
               (Some "123") Samples.counters_env))
       Samples.answers_later Samples.now
       [Samples.counter CloudWatchCounters.Increment])
  = [Some (Some "mycontainer")].
Proof.
  rewrite (context_names_the_metrics
             {| ContextInfo.name := Some "mycontainer";
                ContextInfo.contextId := Some "host-1" |}
             (Some "123") Samples.counters_env Samples.connection
             Samples.answers_later Samples.now
             (Samples.counter CloudWatchCounters.Increment) []
             eq_refl eq_refl eq_refl ltac:(simpl; lia)).
  reflexivity.
Defined.
